(** * isort/finders.py: the finder chain that places a module name in a section

    A shallow embedding of [isort/finders.py] and the properties of its
    finders and of [FindersManager].

    Conventions of the embedding.
    - Python [str] is [string]; the empty string is written [EmptyString].
      Case conversion is the ASCII one.
    - A call that may raise returns a [result]: [Ret v] or [Raise e], where
      [e] ranges over the instances of Python's [Exception] (what the
      [except Exception] clauses of [FindersManager] range over).
    - A generator is the list of the values it yields together with the
      exception, if any, that ends it ([gen]).
    - [print] appends a line to the standard output, a [list string].
    - Everything the module imports from outside this file (the filesystem,
      [fnmatch], [re], [sys], [sysconfig], [glob], [pip], [pipreqs],
      [requirementslib], [.utils]) is a field of the record [Platform];
      [os.path] is the POSIX one and is written out. *)

From Stdlib Require Import String Ascii List Bool Arith ZArith Lia.
From stdpp Require Import base option list gmap strings.

Local Open Scope Z_scope.
Local Open Scope nat_scope.

(** ** Python values *)

Module Py.

(** Instances of [Exception]. *)
Inductive exn : Type :=
| KeyError (key : string)
| AttributeError (msg : string)
| UnboundLocalError (msg : string)
| IndexError (msg : string)
| OSError (msg : string)
| re_error (msg : string)
| OtherException (cls msg : string).

(** [repr] of a string without quotes or escapes in it. *)
Definition repr (s : string) : string := "'" +:+ s +:+ "'".

(** [str(exception)]. *)
Definition str_exn (e : exn) : string :=
  match e with
  | KeyError key => repr key
  | AttributeError msg | UnboundLocalError msg | IndexError msg
  | OSError msg | re_error msg | OtherException _ msg => msg
  end.

Inductive result (A : Type) : Type :=
| Ret (a : A)
| Raise (e : exn).
Arguments Ret {A} a.
Arguments Raise {A} e.

#[export] Instance result_ret : MRet result := @Ret.
#[export] Instance result_bind : MBind result :=
  fun A B f m => match m with Ret a => f a | Raise e => Raise e end.

(** A local variable of a function body: unbound until first assigned. *)
Inductive local (A : Type) : Type :=
| Unbound
| Bound (v : A).
Arguments Unbound {A}.
Arguments Bound {A} v.

(** A generator run to its end: what it yielded, and the exception that
    ended it, if one did. *)
Definition gen (A : Type) : Type := (list A * option exn)%type.

Definition gen_of_result {A} (r : result (list A)) : gen A :=
  match r with
  | Ret l => (l, None)
  | Raise e => ([], Some e)
  end.

(** [for x in xs: yield from body(x)]: the bodies run in order until one of
    them raises. *)
Fixpoint gen_for {A B} (xs : list A) (body : A -> gen B) : gen B :=
  match xs with
  | [] => ([], None)
  | x :: rest =>
      match body x with
      | (ys, Some e) => (ys, Some e)
      | (ys, None) =>
          let '(zs, err) := gen_for rest body in (ys ++ zs, err)
      end
  end.

(** The same loop over a generator: the loop ends with the generator's
    exception when the generator raises after its last value. *)
Definition gen_bind {A B} (g : gen A) (body : A -> gen B) : gen B :=
  match gen_for g.1 body with
  | (ys, Some e) => (ys, Some e)
  | (ys, None) => (ys, g.2)
  end.

(** *** [str] methods *)

Definition startswith (s prefix : string) : bool := String.prefix prefix s.

Fixpoint endswith (s suffix : string) : bool :=
  String.eqb s suffix
  || match s with
     | EmptyString => false
     | String _ s' => endswith s' suffix
     end.

(** [sub in s] *)
Fixpoint contains (sub s : string) : bool :=
  String.prefix sub s
  || match s with
     | EmptyString => false
     | String _ s' => contains sub s'
     end.

Definition is_upper (c : ascii) : bool :=
  (65 <=? nat_of_ascii c) && (nat_of_ascii c <=? 90).

Definition lower_char (c : ascii) : ascii :=
  if is_upper c then ascii_of_nat (nat_of_ascii c + 32) else c.

Fixpoint lower (s : string) : string :=
  match s with
  | EmptyString => EmptyString
  | String c s' => String (lower_char c) (lower s')
  end.

(** [s.replace(old, new)] for a one-character [old]. *)
Fixpoint replace (old : ascii) (new : string) (s : string) : string :=
  match s with
  | EmptyString => EmptyString
  | String c s' =>
      if Ascii.eqb c old then new +:+ replace old new s'
      else String c (replace old new s')
  end.

(** [s.split(sep)] for a one-character [sep]. *)
Fixpoint split (sep : ascii) (s : string) : list string :=
  match s with
  | EmptyString => [EmptyString]
  | String c s' =>
      if Ascii.eqb c sep then EmptyString :: split sep s'
      else match split sep s' with
           | w :: ws => String c w :: ws
           | [] => [String c EmptyString]
           end
  end.

(** [sep.join(parts)] *)
Definition join (sep : string) (parts : list string) : string :=
  String.concat sep parts.

(** [s.partition(sep)] for a one-character [sep]. *)
Fixpoint partition (sep : ascii) (s : string) : string * string * string :=
  match s with
  | EmptyString => (EmptyString, EmptyString, EmptyString)
  | String c s' =>
      if Ascii.eqb c sep then (EmptyString, String sep EmptyString, s')
      else let '(before, found, after) := partition sep s' in
           (String c before, found, after)
  end.

(** [s.rstrip(chars)] with the characters given as a predicate. *)
Fixpoint rstrip_if (drop : ascii -> bool) (s : string) : string :=
  match s with
  | EmptyString => EmptyString
  | String c s' =>
      match rstrip_if drop s' with
      | EmptyString => if drop c then EmptyString else String c EmptyString
      | r => String c r
      end
  end.

Fixpoint lstrip_if (drop : ascii -> bool) (s : string) : string :=
  match s with
  | EmptyString => EmptyString
  | String c s' => if drop c then lstrip_if drop s' else s
  end.

Definition is_space (c : ascii) : bool :=
  let n := nat_of_ascii c in (n =? 32) || ((9 <=? n) && (n <=? 13)).

(** [s.strip()] *)
Definition strip (s : string) : string :=
  rstrip_if is_space (lstrip_if is_space s).

(** [c * n] *)
Fixpoint repeat_char (c : ascii) (n : nat) : string :=
  match n with
  | 0 => EmptyString
  | S n' => String c (repeat_char c n')
  end.

(** [s.rfind(c)], [-1] when [c] does not occur. *)
Fixpoint rfind (c : ascii) (s : string) : Z :=
  match s with
  | EmptyString => (-1)%Z
  | String a s' =>
      let i := rfind c s' in
      if (0 <=? i)%Z then (i + 1)%Z
      else if Ascii.eqb a c then 0%Z else (-1)%Z
  end.

(** [s[:i]] for [0 <= i]. *)
Definition slice_to (i : Z) (s : string) : string :=
  String.substring 0 (Z.to_nat i) s.

(** Truth value of a string. *)
Definition truthy (s : string) : bool := negb (String.eqb s EmptyString).

End Py.
Export Py.

(** ** [os.path] on a POSIX platform *)

Module posixpath.

Definition sep : ascii := "/"%char.
Definition sep_str : string := String sep EmptyString.

Definition isabs (s : string) : bool := startswith s sep_str.

(** [join(a, b)] *)
Definition join (a b : string) : string :=
  if startswith b sep_str then b
  else if negb (truthy a) || endswith a sep_str then a +:+ b
  else a +:+ sep_str +:+ b.

(** [dirname(p)] *)
Definition dirname (p : string) : string :=
  let i := (rfind sep p + 1)%Z in
  let head := slice_to i p in
  if truthy head && negb (String.eqb head (repeat_char sep (String.length head)))
  then rstrip_if (Ascii.eqb sep) head
  else head.

(** The loop of [normpath] over the components. *)
Fixpoint normpath_comps (initial_slashes : nat) (comps new_comps : list string)
  : list string :=
  match comps with
  | [] => new_comps
  | comp :: rest =>
      if String.eqb comp EmptyString || String.eqb comp "." then
        normpath_comps initial_slashes rest new_comps
      else if negb (String.eqb comp "..")
              || ((initial_slashes =? 0) && match new_comps with [] => true | _ => false end)
              || match last new_comps with
                 | Some l => String.eqb l ".."
                 | None => false
                 end
      then normpath_comps initial_slashes rest (new_comps ++ [comp])
      else match new_comps with
           | [] => normpath_comps initial_slashes rest new_comps
           | _ => normpath_comps initial_slashes rest (removelast new_comps)
           end
  end.

(** [normpath(path)] *)
Definition normpath (path : string) : string :=
  if negb (truthy path) then "."
  else
    let initial_slashes :=
      if startswith path sep_str then
        if startswith path (repeat_char sep 2) && negb (startswith path (repeat_char sep 3))
        then 2 else 1
      else 0 in
    let comps := normpath_comps initial_slashes (split sep path) [] in
    let path := Py.join sep_str comps in
    let path := repeat_char sep initial_slashes +:+ path in
    if truthy path then path else ".".

(** [abspath(path)] in the working directory [cwd]. *)
Definition abspath (cwd path : string) : string :=
  normpath (if isabs path then path else join cwd path).

End posixpath.

(** ** What the module is given *)

(** A compiled regular expression: its source and whether [match] finds a
    match at the start of a string. *)
Record Pattern : Type := {
  pattern : string;
  pattern_match : string -> bool
}.

(** Everything imported from outside the file. *)
Record Platform : Type := {
  (** [fnmatch.fnmatch(name, pat)] *)
  fnmatch : string -> string -> bool;
  (** [re.compile(regexp)] *)
  re_compile : string -> result Pattern;
  (** [os.getcwd()] *)
  os_getcwd : string;
  (** [os.listdir(path)] *)
  os_listdir : string -> result (list string);
  (** [os.path.isdir(path)], [os.path.isfile(path)] *)
  os_path_isdir : string -> bool;
  os_path_isfile : string -> bool;
  (** [os.environ.get('VIRTUAL_ENV')] *)
  os_environ_VIRTUAL_ENV : option string;
  (** [glob.glob(pathname)] *)
  glob : string -> list string;
  (** [sys.path] *)
  sys_path : list string;
  (** [sysconfig.get_paths()['stdlib']], [sysconfig.get_config_var("EXT_SUFFIX")] *)
  sysconfig_stdlib : string;
  sysconfig_EXT_SUFFIX : option string;
  (** [.utils.exists_case_sensitive(path)] *)
  exists_case_sensitive : string -> bool;
  (** The lines of the [mapping] file of [pipreqs]; [None] when [pipreqs]
      could not be imported. *)
  pipreqs_mapping : option (result (list string));
  (** The [name] of each requirement [parse_requirements] reads from a file,
      inside [chdir]; [None] when [pip] could not be imported. *)
  parse_requirements : option (string -> gen (option string));
  (** The [name] of each package of [Pipfile.load(path)], inside [chdir];
      [None] when [requirementslib] could not be imported. *)
  Pipfile_load : option (string -> gen string)
}.

(** The configuration mapping, with the keys the finders read. *)
Record Config : Type := {
  forced_separate : option (list string);
  (** the [known_...] keys, by their full name *)
  known : gmap string (list string);
  default_section : option string;
  virtual_env : option string;
  verbose : option bool
}.

(** The section registry: the placements it iterates over and the
    attributes the finders read. *)
Record Sections : Type := {
  placements : list string;
  LOCALFOLDER : string;
  THIRDPARTY : string;
  STDLIB : string
}.

(** A finder instance as the manager sees it: its [__name__] attribute, if
    it has one, and its [find] method. *)
Record Finder : Type := {
  finder_name : option string;
  finder_find : string -> result (option string)
}.

(** A finder class as the manager sees it: its [__name__] and its call. *)
Record FinderClass : Type := {
  class_name : string;
  class_call : Config -> Sections -> result Finder
}.

Definition KNOWN_SECTION_MAPPING : gmap string string :=
  <["STDLIB" := "STANDARD_LIBRARY"]>
    (<["FUTURE" := "FUTURE_LIBRARY"]>
       (<["FIRSTPARTY" := "FIRST_PARTY"]>
          (<["THIRDPARTY" := "THIRD_PARTY"]> ∅))).

(** ** [ForcedSeparateFinder] *)

Module ForcedSeparateFinder.

Definition path_glob (forced_separate : string) : string :=
  if negb (endswith forced_separate "*") then forced_separate +:+ "*"
  else forced_separate.

Fixpoint find_loop (py : Platform) (patterns : list string) (module_name : string)
  : option string :=
  match patterns with
  | [] => None
  | forced_separate :: rest =>
      if fnmatch py module_name (path_glob forced_separate)
         || fnmatch py module_name ("." +:+ path_glob forced_separate)
      then Some forced_separate
      else find_loop py rest module_name
  end.

Definition find (py : Platform) (config : Config) (module_name : string)
  : result (option string) :=
  match forced_separate config with
  | None => Raise (KeyError "forced_separate")
  | Some patterns => Ret (find_loop py patterns module_name)
  end.

Definition new (py : Platform) (config : Config) (sections : Sections)
  : result Finder :=
  Ret {| finder_name := None; finder_find := find py config |}.

End ForcedSeparateFinder.

(** ** [LocalFinder] *)

Module LocalFinder.

Definition find (sections : Sections) (module_name : string)
  : result (option string) :=
  if startswith module_name "." then Ret (Some (LOCALFOLDER sections))
  else Ret None.

Definition new (config : Config) (sections : Sections) : result Finder :=
  Ret {| finder_name := None; finder_find := find sections |}.

End LocalFinder.

(** ** [KnownPatternFinder] *)

Module KnownPatternFinder.

Definition _parse_known_pattern (py : Platform) (pattern : string)
  : result (list string) :=
  if endswith pattern posixpath.sep_str then
    filenames ← os_listdir py pattern;
    Ret (List.filter
           (fun filename => os_path_isdir py (posixpath.join pattern filename))
           filenames)
  else Ret [pattern].

(** The source of the regular expression made from a known pattern. *)
Definition regexp (known_pattern : string) : string :=
  "^" +:+ replace "?" ".?" (replace "*" ".*" known_pattern) +:+ "$".

(** One round of the loop over the placements. *)
Definition known_patterns_of (py : Platform) (config : Config) (placement : string)
  : result (list (Pattern * string)) :=
  let known_placement := default placement (KNOWN_SECTION_MAPPING !! placement) in
  let config_key := "known_" +:+ lower known_placement in
  let known_patterns := default [] (known config !! config_key) in
  expanded ← mapM (_parse_known_pattern py) known_patterns;
  mapM (fun known_pattern =>
          compiled ← re_compile py (regexp known_pattern);
          Ret (compiled, placement))
       (concat expanded).

(** [__init__]: the value of [self.known_patterns]. *)
Definition init (py : Platform) (config : Config) (sections : Sections)
  : result (list (Pattern * string)) :=
  rounds ← mapM (known_patterns_of py config) (rev (placements sections));
  Ret (concat rounds).

Definition module_names_to_check (module_name : string) : list string :=
  let parts := split "." module_name in
  map (fun first_k => Py.join "." (take first_k parts))
      (rev (seq 1 (length parts))).

Fixpoint first_match (known_patterns : list (Pattern * string))
  (module_name_to_check : string) : option string :=
  match known_patterns with
  | [] => None
  | (pattern, placement) :: rest =>
      if pattern_match pattern module_name_to_check then Some placement
      else first_match rest module_name_to_check
  end.

Fixpoint find_loop (known_patterns : list (Pattern * string))
  (module_names : list string) : option string :=
  match module_names with
  | [] => None
  | module_name_to_check :: rest =>
      match first_match known_patterns module_name_to_check with
      | Some placement => Some placement
      | None => find_loop known_patterns rest
      end
  end.

Definition find (known_patterns : list (Pattern * string)) (module_name : string)
  : option string :=
  find_loop known_patterns (module_names_to_check module_name).

Definition new (py : Platform) (config : Config) (sections : Sections)
  : result Finder :=
  known_patterns ← init py config sections;
  Ret {| finder_name := None;
         finder_find := fun module_name => Ret (find known_patterns module_name) |}.

End KnownPatternFinder.

(** ** [PathFinder] *)

Module PathFinder.

Record t : Type := {
  paths : list string;
  self_virtual_env : option string;
  virtual_env_src : string;
  stdlib_lib_prefix : string;
  ext_suffix : string
}.

Definition append_new (paths : list string) (path : string) : list string :=
  if existsb (String.eqb path) paths then paths else paths ++ [path].

Definition init (py : Platform) (config : Config) : result t :=
  match sys_path py with
  | [] => Raise (IndexError "list assignment index out of range")
  | _ :: others =>
      let paths := os_getcwd py :: others in
      let venv :=
        match virtual_env config with
        | Some v => if truthy v then Some v else os_environ_VIRTUAL_ENV py
        | None => os_environ_VIRTUAL_ENV py
        end in
      let '(venv_src, paths) :=
        match venv with
        | Some v =>
            if truthy v then
              let paths :=
                fold_left append_new (glob py (v +:+ "/lib/python*/site-packages")) paths in
              let paths :=
                fold_left append_new (glob py (v +:+ "/lib/python*/*/site-packages")) paths in
              let paths :=
                paths ++ List.filter (os_path_isdir py) (glob py (v +:+ "/src/*")) in
              (v +:+ "/src/", paths)
            else (EmptyString, paths)
        | None => (EmptyString, paths)
        end in
      let stdlib := sysconfig_stdlib py in
      Ret {| paths := append_new paths stdlib;
             self_virtual_env := venv;
             virtual_env_src := venv_src;
             stdlib_lib_prefix := stdlib;
             ext_suffix :=
               match sysconfig_EXT_SUFFIX py with
               | Some suffix => if truthy suffix then suffix else ".so"
               | None => ".so"
               end |}
  end.

Fixpoint find_loop (py : Platform) (config : Config) (sections : Sections)
  (self : t) (prefixes : list string) (module_name : string)
  : result (option string) :=
  match prefixes with
  | [] => Ret None
  | prefix :: rest =>
      let package_path :=
        Py.join "/" [prefix; List.hd EmptyString (split "." module_name)] in
      let is_module :=
        exists_case_sensitive py (package_path +:+ ".py")
        || exists_case_sensitive py (package_path +:+ ".so")
        || exists_case_sensitive py (package_path +:+ ext_suffix self) in
      let is_package :=
        exists_case_sensitive py package_path && os_path_isdir py package_path in
      if is_module || is_package then
        if contains "site-packages" prefix then Ret (Some (THIRDPARTY sections))
        else if contains "dist-packages" prefix then Ret (Some (THIRDPARTY sections))
        else if match self_virtual_env self with
                | Some v => truthy v
                | None => false
                end && contains (virtual_env_src self) prefix
        then Ret (Some (THIRDPARTY sections))
        else if startswith prefix (stdlib_lib_prefix self)
        then Ret (Some (STDLIB sections))
        else match default_section config with
             | Some section => Ret (Some section)
             | None => Raise (KeyError "default_section")
             end
      else find_loop py config sections self rest module_name
  end.

Definition find (py : Platform) (config : Config) (sections : Sections)
  (self : t) (module_name : string) : result (option string) :=
  find_loop py config sections self (paths self) module_name.

Definition new (py : Platform) (config : Config) (sections : Sections)
  : result Finder :=
  self ← init py config;
  Ret {| finder_name := None; finder_find := find py config sections self |}.

End PathFinder.

(** ** [ReqsBaseFinder] *)

Module ReqsBaseFinder.

(** What a subclass provides. *)
Record subclass : Type := {
  enabled : bool;
  _get_names : string -> gen string;
  _get_files_from_dir : string -> gen string
}.

(** The instance attributes [__init__] sets when the class is enabled. *)
Record t : Type := {
  mapping : option (gmap string string);
  names : list string
}.

Definition _load_mapping (py : Platform) : result (option (gmap string string)) :=
  match pipreqs_mapping py with
  | None => Ret None
  | Some (Raise e) => Raise e
  | Some (Ret lines) =>
      Ret (Some (fold_left
                   (fun (mappings : gmap string string) line =>
                      let '(import_name, _, pypi_name) := partition ":" (strip line) in
                      <[pypi_name := import_name]> mappings)
                   lines ∅))
  end.

(** The loop of [_get_parents], [None] when the fuel runs out before the
    loop ends. *)
Fixpoint _get_parents_loop (fuel : nat) (path prev : string)
  : option (list string) :=
  if String.eqb path prev then Some []
  else match fuel with
       | 0 => None
       | S fuel' =>
           cons path <$> _get_parents_loop fuel' (posixpath.dirname path) path
       end.

Definition _get_parents (path : string) : list string :=
  default [] (_get_parents_loop (S (String.length path)) path EmptyString).

(** The directory [_get_files] starts from. *)
Definition start_dir (py : Platform) (self_path : string) : string :=
  let path := posixpath.abspath (os_getcwd py) self_path in
  if os_path_isfile py path then posixpath.dirname path else path.

Definition _get_files (py : Platform) (cls : subclass) (self_path : string)
  : gen string :=
  gen_for (_get_parents (start_dir py self_path)) (_get_files_from_dir cls).

Definition _normalize_name (mapping : option (gmap string string)) (name : string)
  : string :=
  let name :=
    match mapping with
    | Some m => if decide (m = ∅) then name else default name (m !! name)
    | None => name
    end in
  replace "-" "_" (lower name).

Definition _load_names (py : Platform) (cls : subclass)
  (mapping : option (gmap string string)) (self_path : string)
  : result (list string) :=
  match gen_bind (_get_files py cls self_path)
          (fun path =>
             let '(found, err) := _get_names cls path in
             (map (_normalize_name mapping) found, err)) with
  | (_, Some e) => Raise e
  | (names, None) => Ret names
  end.

(** [__init__]; a disabled class sets neither attribute. *)
Definition init (py : Platform) (cls : subclass) (self_path : string)
  : result (option t) :=
  if enabled cls then
    mapping ← _load_mapping py;
    names ← _load_names py cls mapping self_path;
    Ret (Some {| mapping := mapping; names := names |})
  else Ret None.

Fixpoint find_loop (sections : Sections) (names : list string) (module_name : string)
  : option string :=
  match names with
  | [] => None
  | name :: rest =>
      if String.eqb module_name name then Some (THIRDPARTY sections)
      else find_loop sections rest module_name
  end.

Definition find (cls : subclass) (sections : Sections) (self : option t)
  (module_name : string) : result (option string) :=
  if negb (enabled cls) then Ret None
  else
    let '(module_name, _sep, _submodules) := partition "." module_name in
    let module_name := lower module_name in
    if negb (truthy module_name) then Ret None
    else match self with
         | Some self => Ret (find_loop sections (names self) module_name)
         | None => Raise (AttributeError "object has no attribute 'names'")
         end.

Definition new (py : Platform) (cls : subclass) (config : Config)
  (sections : Sections) : result Finder :=
  self ← init py cls ".";
  Ret {| finder_name := None; finder_find := find cls sections self |}.

End ReqsBaseFinder.

(** ** [RequirementsFinder] *)

Module RequirementsFinder.

Definition exts : list string := [".txt"; ".in"].

Definition enabled (py : Platform) : bool :=
  match parse_requirements py with Some _ => true | None => false end.

(** The first extension the name ends with yields, then [break]. *)
Definition yield_file (fname full_path : string) : list string :=
  if existsb (endswith fname) exts then [full_path] else [].

Definition _get_files_from_dir (py : Platform) (path : string) : gen string :=
  gen_bind (gen_of_result (os_listdir py path))
    (fun fname =>
       if negb (contains "requirements" fname) then ([], None)
       else
         let full_path := posixpath.join path fname in
         if os_path_isdir py full_path then
           gen_bind (gen_of_result (os_listdir py path))
             (fun subfile_name =>
                (flat_map
                   (fun ext =>
                      if endswith subfile_name ext
                      then [posixpath.join path subfile_name] else [])
                   exts,
                 None))
         else if os_path_isfile py full_path then (yield_file fname full_path, None)
         else ([], None)).

Definition _get_names (py : Platform) (path : string) : gen string :=
  match parse_requirements py with
  | Some parse =>
      let '(reqs, err) := parse path in
      (omap (fun name : option string =>
               match name with
               | Some n => if truthy n then Some n else None
               | None => None
               end) reqs,
       err)
  | None => ([], Some (OtherException "TypeError" "'NoneType' object is not callable"))
  end.

Definition cls (py : Platform) : ReqsBaseFinder.subclass :=
  {| ReqsBaseFinder.enabled := enabled py;
     ReqsBaseFinder._get_names := _get_names py;
     ReqsBaseFinder._get_files_from_dir := _get_files_from_dir py |}.

Definition new (py : Platform) := ReqsBaseFinder.new py (cls py).

End RequirementsFinder.

(** ** [PipfileFinder] *)

Module PipfileFinder.

Definition enabled (py : Platform) : bool :=
  match Pipfile_load py with Some _ => true | None => false end.

Definition _get_names (py : Platform) (path : string) : gen string :=
  match Pipfile_load py with
  | Some load => load path
  | None => ([], Some (AttributeError "'NoneType' object has no attribute 'load'"))
  end.

Definition _get_files_from_dir (py : Platform) (path : string) : gen string :=
  match os_listdir py path with
  | Raise e => ([], Some e)
  | Ret entries =>
      if existsb (String.eqb "Pipfile") entries then ([path], None) else ([], None)
  end.

Definition cls (py : Platform) : ReqsBaseFinder.subclass :=
  {| ReqsBaseFinder.enabled := enabled py;
     ReqsBaseFinder._get_names := _get_names py;
     ReqsBaseFinder._get_files_from_dir := _get_files_from_dir py |}.

Definition new (py : Platform) := ReqsBaseFinder.new py (cls py).

End PipfileFinder.

(** ** [DefaultFinder] *)

Module DefaultFinder.

Definition find (config : Config) (module_name : string) : result (option string) :=
  match default_section config with
  | Some section => Ret (Some section)
  | None => Raise (KeyError "default_section")
  end.

Definition new (config : Config) (sections : Sections) : result Finder :=
  Ret {| finder_name := None; finder_find := find config |}.

End DefaultFinder.

(** ** [FindersManager] *)

Module FindersManager.

Definition _default_finders_classes (py : Platform) : list FinderClass :=
  [ {| class_name := "ForcedSeparateFinder"; class_call := ForcedSeparateFinder.new py |};
    {| class_name := "LocalFinder"; class_call := LocalFinder.new |};
    {| class_name := "KnownPatternFinder"; class_call := KnownPatternFinder.new py |};
    {| class_name := "PathFinder"; class_call := PathFinder.new py |};
    {| class_name := "PipfileFinder"; class_call := PipfileFinder.new py |};
    {| class_name := "RequirementsFinder"; class_call := RequirementsFinder.new py |};
    {| class_name := "DefaultFinder"; class_call := DefaultFinder.new |} ].

(** The attributes of the class that hold finder classes, by name. *)
Definition class_attributes (py : Platform) : list (string * list FinderClass) :=
  [ ("_default_finders_classes", _default_finders_classes py) ].

(** [self.<name>] read in [__init__] before [self.finders] is assigned: the
    instance has only [verbose], so the class is searched. *)
Definition getattr (py : Platform) (name : string) : result (list FinderClass) :=
  match List.find (fun attribute => String.eqb attribute.1 name) (class_attributes py) with
  | Some attribute => Ret attribute.2
  | None =>
      Raise (AttributeError ("'FindersManager' object has no attribute " +:+ repr name))
  end.

Record t : Type := {
  self_verbose : bool;
  self_finders : list Finder
}.

Definition instantiation_message (name : string) (exception : exn) : string :=
  name +:+ " encountered an error (" +:+ str_exn exception
       +:+ ") during instantiation and cannot be used".

(** The loop of [__init__]: what is printed and the finders appended. *)
Fixpoint init_loop (verbose : bool) (config : Config) (sections : Sections)
  (finders : list FinderClass) : list string * list Finder :=
  match finders with
  | [] => ([], [])
  | finder :: rest =>
      let '(printed, appended) := init_loop verbose config sections rest in
      match class_call finder config sections with
      | Ret instance => (printed, instance :: appended)
      | Raise exception =>
          if verbose
          then (instantiation_message (class_name finder) exception :: printed, appended)
          else (printed, appended)
      end
  end.

(** [__init__]: what is printed, and the manager or the exception raised. *)
Definition init (py : Platform) (config : Config) (sections : Sections)
  (finders : option (list FinderClass)) : list string * result t :=
  let verbose := default false (verbose config) in
  match match finders with
        | None => getattr py "finders"
        | Some finders => Ret finders
        end with
  | Raise e => ([], Raise e)
  | Ret finders =>
      let '(printed, appended) := init_loop verbose config sections finders in
      (printed, Ret {| self_verbose := verbose; self_finders := appended |})
  end.

Definition identification_message (name : string) (exception : exn)
  (module_name : string) : string :=
  name +:+ " encountered an error (" +:+ str_exn exception
       +:+ ") while trying to identify the " +:+ module_name +:+ " module".

(** The loop of [find]. [section] is the local variable of that name, which
    no statement before the loop assigns. *)
Fixpoint find_loop (verbose : bool) (finders : list Finder) (module_name : string)
  (section : local (option string)) : list string * result (option string) :=
  match finders with
  | [] => ([], Ret None)
  | finder :: rest =>
      (* the [try] statement *)
      let '(printed, after_try) :=
        match finder_find finder module_name with
        | Ret found => ([], Ret (Bound found))
        | Raise exception =>
            if verbose then
              match finder_name finder with
              | Some name =>
                  ([identification_message name exception module_name], Ret section)
              | None =>
                  ([], Raise (AttributeError "object has no attribute '__name__'"))
              end
            else ([], Ret section)
        end in
      (* [if section is not None: return section] *)
      match after_try with
      | Raise e => (printed, Raise e)
      | Ret Unbound =>
          (printed,
           Raise (UnboundLocalError "local variable 'section' referenced before assignment"))
      | Ret (Bound (Some found)) => (printed, Ret (Some found))
      | Ret (Bound None) =>
          let '(printed', outcome) := find_loop verbose rest module_name (Bound None) in
          (printed ++ printed', outcome)
      end
  end.

Definition find (self : t) (module_name : string) : list string * result (option string) :=
  find_loop (self_verbose self) (self_finders self) module_name Unbound.

End FindersManager.

(** ** Models of the library functions

    [fnmatch] and [re] are not part of the module. The two models below give
    them a meaning on the inputs of the examples: [fnmatch] on a POSIX
    platform for patterns without a bracket, and [re] for the regular
    expressions made of ordinary characters, [.], [^], [$] and the
    quantifiers [*] and [?] after a character or [.]. *)

Module fnmatch_model.

(** [fnmatch.fnmatch(name, pat)]: [os.path.normcase] is the identity, [*]
    stands for any run of characters, [?] for one character. *)
Fixpoint fnmatch_pat (pat : string) : string -> bool :=
  match pat with
  | EmptyString => fun name => String.eqb name EmptyString
  | String p pat' =>
      if Ascii.eqb p "*" then
        fix star (name : string) : bool :=
          fnmatch_pat pat' name
          || match name with
             | EmptyString => false
             | String _ name' => star name'
             end
      else if Ascii.eqb p "?" then
        fun name =>
          match name with
          | EmptyString => false
          | String _ name' => fnmatch_pat pat' name'
          end
      else
        fun name =>
          match name with
          | EmptyString => false
          | String c name' => Ascii.eqb c p && fnmatch_pat pat' name'
          end
  end.

Definition fnmatch (name pat : string) : bool := fnmatch_pat pat name.

End fnmatch_model.

Module re_model.

Definition newline : ascii := ascii_of_nat 10.

Inductive atom : Type :=
| Bol             (* ^ *)
| Eol             (* $ *)
| AnyChar         (* . *)
| Chr (c : ascii).

Inductive quantifier : Type :=
| One
| Opt             (* ? *)
| Star.           (* * *)

Definition regex : Type := list (atom * quantifier).

(** The characters with a meaning of their own in a regular expression. *)
Definition special (c : ascii) : bool :=
  existsb (Ascii.eqb c) (list_ascii_of_string ".^$*+?{}[]\|()").

Definition atom_of (c : ascii) : option atom :=
  if Ascii.eqb c "^" then Some Bol
  else if Ascii.eqb c "$" then Some Eol
  else if Ascii.eqb c "." then Some AnyChar
  else if special c then None
  else Some (Chr c).

Definition consuming (a : atom) : bool :=
  match a with
  | Bol | Eol => false
  | AnyChar | Chr _ => true
  end.

(** [None]: the expression is outside the fragment. *)
Fixpoint parse (s : string) : option regex :=
  match s with
  | EmptyString => Some []
  | String c s' =>
      match atom_of c with
      | None => None
      | Some a =>
          match s' with
          | EmptyString => Some [(a, One)]
          | String q s'' =>
              if Ascii.eqb q "*" then
                if consuming a then cons (a, Star) <$> parse s'' else None
              else if Ascii.eqb q "?" then
                if consuming a then cons (a, Opt) <$> parse s'' else None
              else cons (a, One) <$> parse s'
          end
      end
  end.

Definition accepts (a : atom) (c : ascii) : bool :=
  match a with
  | AnyChar => negb (Ascii.eqb c newline)
  | Chr c' => Ascii.eqb c c'
  | Bol | Eol => false
  end.

(** [$]: the end of the string, or just before a newline that ends it. *)
Definition at_end (s : string) : bool :=
  String.eqb s EmptyString || String.eqb s (String newline EmptyString).

(** Whether the expression matches some prefix of [s]; [at_start] tells
    whether [s] is the whole string. *)
Fixpoint matches (r : regex) (at_start : bool) (s : string) {struct r} : bool :=
  match r with
  | [] => true
  | (Bol, _) :: r' => at_start && matches r' at_start s
  | (Eol, _) :: r' => at_end s && matches r' at_start s
  | (a, One) :: r' =>
      match s with
      | EmptyString => false
      | String c s' => accepts a c && matches r' false s'
      end
  | (a, Opt) :: r' =>
      match s with
      | EmptyString => false
      | String c s' => accepts a c && matches r' false s'
      end
      || matches r' at_start s
  | (a, Star) :: r' =>
      (fix star (at_start : bool) (s : string) {struct s} : bool :=
         matches r' at_start s
         || match s with
            | EmptyString => false
            | String c s' => accepts a c && star false s'
            end) at_start s
  end.

(** [re.compile(regexp)] on the fragment. *)
Definition compile (regexp : string) : result Pattern :=
  match parse regexp with
  | Some r => Ret {| pattern := regexp; pattern_match := matches r true |}
  | None => Raise (re_error "outside the modelled fragment")
  end.

End re_model.

(** A POSIX platform over a small filesystem, for the examples. *)
Module posix.

Record filesystem : Type := {
  dirs : list (string * list string);
  files : list string
}.

Definition listdir (fs : filesystem) (path : string) : result (list string) :=
  match List.find (fun d => String.eqb d.1 path) (dirs fs) with
  | Some d => Ret d.2
  | None => Raise (OSError ("No such file or directory: " +:+ repr path))
  end.

Definition platform (fs : filesystem) (cwd : string)
  (requirements : option (string -> gen (option string))) : Platform :=
  {| fnmatch := fnmatch_model.fnmatch;
     re_compile := re_model.compile;
     os_getcwd := cwd;
     os_listdir := listdir fs;
     os_path_isdir := fun path => existsb (fun d => String.eqb d.1 path) (dirs fs);
     os_path_isfile := fun path => existsb (String.eqb path) (files fs);
     os_environ_VIRTUAL_ENV := None;
     glob := fun _ => [];
     sys_path := [EmptyString; "/usr/lib/python3.7"];
     sysconfig_stdlib := "/usr/lib/python3.7";
     sysconfig_EXT_SUFFIX := Some ".cpython-37m-x86_64-linux-gnu.so";
     exists_case_sensitive :=
       fun path => existsb (fun d => String.eqb d.1 path) (dirs fs)
                   || existsb (String.eqb path) (files fs);
     pipreqs_mapping := None;
     parse_requirements := requirements;
     Pipfile_load := None |}.

Definition empty_fs : filesystem := {| dirs := []; files := [] |}.

End posix.

Definition empty_config : Config :=
  {| forced_separate := None; known := ∅; default_section := None;
     virtual_env := None; verbose := None |}.

Definition default_sections : Sections :=
  {| placements := ["FUTURE"; "STDLIB"; "THIRDPARTY"; "FIRSTPARTY"; "LOCALFOLDER"];
     LOCALFOLDER := "LOCALFOLDER"; THIRDPARTY := "THIRDPARTY"; STDLIB := "STDLIB" |}.

(** ** Definitions used to state the properties *)

(** The finders a list of classes yields: the instance of each class whose
    call returns, in the order of the classes. *)
Definition instantiated (config : Config) (sections : Sections)
  (classes : list FinderClass) : list Finder :=
  omap (fun finder =>
          match class_call finder config sections with
          | Ret instance => Some instance
          | Raise _ => None
          end) classes.

(** A manager that does not print, over the given finders. *)
Definition quiet_manager (finders : list Finder) : FindersManager.t :=
  {| FindersManager.self_verbose := false; FindersManager.self_finders := finders |}.

(** What [DefaultFinder(config, sections)] returns. *)
Definition default_finder (config : Config) : Finder :=
  {| finder_name := None; finder_find := DefaultFinder.find config |}.

(** The names the subclass reads from the manifests [_get_files] yields, in
    the order [_load_names] meets them. *)
Definition yielded_names (py : Platform) (cls : ReqsBaseFinder.subclass)
  (self_path : string) : list string :=
  flat_map (fun path => (ReqsBaseFinder._get_names cls path).1)
           (ReqsBaseFinder._get_files py cls self_path).1.

(** The first dotted component of a module name, lowercased. *)
Definition first_component (module_name : string) : string :=
  lower (partition "." module_name).1.1.

(** A project directory with a requirements file, and what [pip] reads
    from it. *)
Definition project_fs : posix.filesystem :=
  {| posix.dirs :=
       [ ("/home/u/proj", ["requirements.txt"; "setup.py"; "src"]);
         ("/home/u/proj/src", []);
         ("/home/u", ["proj"]);
         ("/home", ["u"]);
         ("/", ["home"]) ];
     posix.files := ["/home/u/proj/requirements.txt"; "/home/u/proj/setup.py"] |}.

Definition project_requirements (path : string) : gen (option string) :=
  if String.eqb path "/home/u/proj/requirements.txt"
  then ([Some "Django"; None; Some "django-haystack"; Some "Flask-RESTFul"], None)
  else ([], Some (OSError "Could not open requirements file")).

Definition project_platform : Platform :=
  posix.platform project_fs "/home/u/proj/src" (Some project_requirements).

(** Each entry of the list is followed by its [dirname], which differs
    from it. *)
Fixpoint ancestor_chain (paths : list string) : Prop :=
  match paths with
  | path :: (parent :: _) as rest =>
      parent = posixpath.dirname path /\ parent <> path /\ ancestor_chain rest
  | _ => True
  end.

(** A string of slashes only. *)
Definition all_seps (path : string) : Prop :=
  path = repeat_char posixpath.sep (String.length path).

(** The part of a path up to its last slash, by recursion on the path. *)
Fixpoint up_to_last_sep (p : string) : string :=
  match p with
  | EmptyString => EmptyString
  | String c p' =>
      if (0 <=? rfind posixpath.sep p')%Z then String c (up_to_last_sep p')
      else if Ascii.eqb c posixpath.sep then posixpath.sep_str
      else EmptyString
  end.

(** A project whose requirements are kept in a directory. *)
Definition requirements_dir_fs : posix.filesystem :=
  {| posix.dirs :=
       [ ("/proj", ["requirements"; "notes.txt"; "setup.py"]);
         ("/proj/requirements", ["base.txt"; "dev.in"; "README.md"]) ];
     posix.files :=
       [ "/proj/notes.txt"; "/proj/setup.py"; "/proj/requirements/base.txt";
         "/proj/requirements/dev.in"; "/proj/requirements/README.md" ] |}.

Definition requirements_dir_platform : Platform :=
  posix.platform requirements_dir_fs "/proj" (Some (fun _ => ([], None))).

(** The manifests of a directory as the specification words them: for each
    entry whose name contains [requirements], the entries of that directory
    that end in [.txt] or [.in] when it is a directory, and the entry itself
    when it is a file that ends in [.txt] or [.in]. *)
Definition manifests_as_specified (py : Platform) (path : string) : gen string :=
  gen_bind (gen_of_result (os_listdir py path))
    (fun fname =>
       if negb (contains "requirements" fname) then ([], None)
       else
         let full_path := posixpath.join path fname in
         if os_path_isdir py full_path then
           gen_bind (gen_of_result (os_listdir py full_path))
             (fun subfile_name =>
                (if existsb (endswith subfile_name) RequirementsFinder.exts
                 then [posixpath.join full_path subfile_name] else [],
                 None))
         else if os_path_isfile py full_path
                 && existsb (endswith fname) RequirementsFinder.exts
         then ([full_path], None)
         else ([], None)).

(** Glob matching as the specification words it: [*] stands for any run of
    characters, [?] for any single character, any other character for
    itself, and the whole name has to be matched. *)
Inductive glob_matches : string -> string -> Prop :=
| glob_empty : glob_matches EmptyString EmptyString
| glob_star pat run name :
    glob_matches pat name -> glob_matches (String "*" pat) (run +:+ name)
| glob_question pat c name :
    glob_matches pat name -> glob_matches (String "?" pat) (String c name)
| glob_char c pat name :
    c <> "*"%char -> c <> "?"%char ->
    glob_matches pat name -> glob_matches (String c pat) (String c name).

(** Whether a forced-separate pattern matches, as the code tests it. *)
Definition forced_separate_matches (py : Platform) (module_name forced_separate : string)
  : bool :=
  fnmatch py module_name (ForcedSeparateFinder.path_glob forced_separate)
  || fnmatch py module_name ("." +:+ ForcedSeparateFinder.path_glob forced_separate).


Definition forced_separate_only (patterns : list string) : Config :=
  {| forced_separate := Some patterns; known := ∅; default_section := None;
     virtual_env := None; verbose := None |}.

Definition plain_platform : Platform := posix.platform posix.empty_fs "/" None.

(** No pattern of the list matches the name. *)
Definition no_pattern_matches (known_patterns : list (Pattern * string))
  (name : string) : Prop :=
  Forall (fun known : Pattern * string => pattern_match known.1 name = false)
         known_patterns.

(** A configuration with one known third-party pattern. *)
Definition known_third_party (patterns : list string) : Config :=
  {| forced_separate := None;
     known := <["known_third_party" := patterns]> ∅;
     default_section := None; virtual_env := None; verbose := None |}.

(** ** Definitions used to state the further properties *)

(** What a finder answers when a raised exception counts as no answer. *)
Definition answer_of (finder : Finder) (module_name : string) : option string :=
  match finder_find finder module_name with
  | Ret answer => answer
  | Raise _ => None
  end.

(** The first answer of a list of finders. *)
Fixpoint first_answer (finders : list Finder) (module_name : string) : option string :=
  match finders with
  | [] => None
  | finder :: rest =>
      match answer_of finder module_name with
      | Some answer => Some answer
      | None => first_answer rest module_name
      end
  end.

(** The classes of a list whose call raises, each with its exception. *)
Definition failures (config : Config) (sections : Sections)
  (classes : list FinderClass) : list (string * exn) :=
  omap (fun finder =>
          match class_call finder config sections with
          | Ret _ => None
          | Raise e => Some (class_name finder, e)
          end) classes.

(** What [LocalFinder(config, sections)] and what
    [ForcedSeparateFinder(config, sections)] return. *)
Definition local_finder (sections : Sections) : Finder :=
  {| finder_name := None; finder_find := LocalFinder.find sections |}.

Definition forced_separate_finder (py : Platform) (config : Config) : Finder :=
  {| finder_name := None; finder_find := ForcedSeparateFinder.find py config |}.

(** A configuration with only the default section set. *)
Definition default_only (section : string) : Config :=
  {| forced_separate := None; known := ∅; default_section := Some section;
     virtual_env := None; verbose := None |}.

(** A class whose call raises, and one whose call returns. *)
Definition broken_class : FinderClass :=
  {| class_name := "BrokenFinder";
     class_call := fun _ _ => Raise (OSError "unreadable") |}.

Definition default_class : FinderClass :=
  {| class_name := "DefaultFinder"; class_call := DefaultFinder.new |}.

Definition verbose_config : Config :=
  {| forced_separate := None; known := ∅; default_section := None;
     virtual_env := None; verbose := Some true |}.

(** A configuration with one forced-separate pattern and a default
    section. *)
Definition legacy_config : Config :=
  {| forced_separate := Some ["legacy*"]; known := ∅;
     default_section := Some "THIRDPARTY"; virtual_env := None; verbose := None |}.

(** The configuration key [KnownPatternFinder.__init__] reads for a
    placement, and the patterns configured under it. *)
Definition config_key (placement : string) : string :=
  "known_" +:+ lower (default placement (KNOWN_SECTION_MAPPING !! placement)).

Definition configured (config : Config) (placement : string) : list string :=
  default [] (known config !! config_key placement).

(** The configured patterns, each with its placement, in the order
    [__init__] meets them: the placements from last to first, the patterns
    of a placement as they are configured. *)
Definition registrations (config : Config) (sections : Sections)
  : list (string * string) :=
  flat_map (fun placement => map (fun p => (p, placement)) (configured config placement))
           (rev (placements sections)).

Definition compile_registration (py : Platform) (registration : string * string)
  : result (Pattern * string) :=
  compiled ← re_compile py (KnownPatternFinder.regexp registration.1);
  Ret (compiled, registration.2).

(** A configuration with known patterns for two sections. *)
Definition two_sections_config : Config :=
  {| forced_separate := Some [];
     known := <["known_third_party" := ["numpy"; "django*"]]>
                (<["known_first_party" := ["myapp"]]> ∅);
     default_section := Some "THIRDPARTY"; virtual_env := None; verbose := None |}.

(** Whether [PathFinder.find] finds the top-level component of a module
    name under a path: as a module or as a package. *)
Definition found_under (py : Platform) (self : PathFinder.t)
  (prefix module_name : string) : bool :=
  let package_path :=
    Py.join "/" [prefix; List.hd EmptyString (split "." module_name)] in
  (exists_case_sensitive py (package_path +:+ ".py")
   || exists_case_sensitive py (package_path +:+ ".so")
   || exists_case_sensitive py (package_path +:+ PathFinder.ext_suffix self))
  || (exists_case_sensitive py package_path && os_path_isdir py package_path).

(** A platform with a standard library and a site-packages directory. *)
Definition installed_fs : posix.filesystem :=
  {| posix.dirs :=
       [ ("/usr/lib/python3.7", ["os.py"; "json"]);
         ("/usr/lib/python3.7/json", ["__init__.py"]);
         ("/usr/lib/python3.7/site-packages", ["numpy"]);
         ("/usr/lib/python3.7/site-packages/numpy", ["__init__.py"]) ];
     posix.files :=
       [ "/usr/lib/python3.7/os.py"; "/usr/lib/python3.7/json/__init__.py";
         "/usr/lib/python3.7/site-packages/numpy/__init__.py" ] |}.

Definition installed_platform : Platform :=
  {| fnmatch := fnmatch_model.fnmatch;
     re_compile := re_model.compile;
     os_getcwd := "/home/u/proj";
     os_listdir := posix.listdir installed_fs;
     os_path_isdir :=
       fun path => existsb (fun d => String.eqb d.1 path) (posix.dirs installed_fs);
     os_path_isfile := fun path => existsb (String.eqb path) (posix.files installed_fs);
     os_environ_VIRTUAL_ENV := None;
     glob := fun _ => [];
     sys_path := ["/usr/bin"; "/usr/lib/python3.7/site-packages"];
     sysconfig_stdlib := "/usr/lib/python3.7";
     sysconfig_EXT_SUFFIX := None;
     exists_case_sensitive :=
       fun path => existsb (fun d => String.eqb d.1 path) (posix.dirs installed_fs)
                   || existsb (String.eqb path) (posix.files installed_fs);
     pipreqs_mapping := None;
     parse_requirements := None;
     Pipfile_load := None |}.

(** What [PathFinder.__init__] sets on [installed_platform]. *)
Definition installed_self : PathFinder.t :=
  {| PathFinder.paths :=
       ["/home/u/proj"; "/usr/lib/python3.7/site-packages"; "/usr/lib/python3.7"];
     PathFinder.self_virtual_env := None;
     PathFinder.virtual_env_src := EmptyString;
     PathFinder.stdlib_lib_prefix := "/usr/lib/python3.7";
     PathFinder.ext_suffix := ".so" |}.

(** The entry a line of the mapping file of [pipreqs] stands for: the name
    on PyPI, after the colon, and the import name before it. *)
Definition mapping_entry (line : string) : string * string :=
  let '(import_name, _, pypi_name) := partition ":" (strip line) in
  (pypi_name, import_name).

(** The import name of the last line for a PyPI name. *)
Definition last_import (lines : list string) (pypi_name : string) : option string :=
  last (omap (fun line =>
                if String.eqb (mapping_entry line).1 pypi_name
                then Some (mapping_entry line).2 else None) lines).

(** The characters of a string. *)
Definition chars (s : string) : list ascii := list_ascii_of_string s.

(** A project below a directory that cannot be listed. *)
Definition unreadable_parent_fs : posix.filesystem :=
  {| posix.dirs := [ ("/home/u/proj", ["setup.py"; "Pipfile"]) ];
     posix.files := ["/home/u/proj/setup.py"; "/home/u/proj/Pipfile"] |}.

Definition unreadable_parent_platform : Platform :=
  posix.platform unreadable_parent_fs "/home/u/proj" (Some (fun _ => ([], None))).

(** Whether a directory can be listed and holds an entry named [Pipfile]. *)
Definition has_Pipfile (py : Platform) (path : string) : bool :=
  match os_listdir py path with
  | Ret entries => existsb (String.eqb "Pipfile") entries
  | Raise _ => false
  end.

(** A project with a [Pipfile] in it and one above it. *)
Definition pipfile_fs : posix.filesystem :=
  {| posix.dirs :=
       [ ("/w/repo/pkg", ["Pipfile"; "pkg.py"]);
         ("/w/repo", ["pkg"; "README"]);
         ("/w", ["repo"; "Pipfile"]);
         ("/", ["w"]) ];
     posix.files := ["/w/repo/pkg/Pipfile"; "/w/repo/pkg/pkg.py"; "/w/repo/README";
                     "/w/Pipfile"] |}.

Definition pipfile_platform : Platform :=
  posix.platform pipfile_fs "/w/repo/pkg" None.

(** What becomes of one character of a known pattern in the regular
    expression, and of the whole pattern. *)
Definition translate_char (c : ascii) : string :=
  if Ascii.eqb c "*" then ".*"
  else if Ascii.eqb c "?" then ".?"
  else String c EmptyString.

Fixpoint translate (known_pattern : string) : string :=
  match known_pattern with
  | EmptyString => EmptyString
  | String c rest => translate_char c +:+ translate rest
  end.

(** The known patterns whose regular expression is in the fragment of the
    model of [re]: their characters are [*], [?], [.] and characters
    without a meaning of their own in a regular expression. *)
Definition in_fragment (known_pattern : string) : Prop :=
  Forall (fun c => c = "*"%char \/ c = "?"%char \/ c = "."%char
                   \/ re_model.special c = false)
         (chars known_pattern).

(** The parsed form of the translation of a character and of a pattern. *)
Definition item_of (c : ascii) : re_model.atom * re_model.quantifier :=
  if Ascii.eqb c "*" then (re_model.AnyChar, re_model.Star)
  else if Ascii.eqb c "?" then (re_model.AnyChar, re_model.Opt)
  else if Ascii.eqb c "." then (re_model.AnyChar, re_model.One)
  else (re_model.Chr c, re_model.One).

Definition items (known_pattern : string) : re_model.regex :=
  map item_of (chars known_pattern).

(** What a known pattern matches, read off its regular expression: the
    whole candidate has to be matched, up to one newline at its end; [*]
    stands for any run of characters other than newlines, [?] for at most
    one such character, [.] for exactly one, any other character for
    itself. *)
Inductive known_matches : string -> string -> Prop :=
| known_end : known_matches EmptyString EmptyString
| known_end_newline :
    known_matches EmptyString (String re_model.newline EmptyString)
| known_star pat run candidate :
    Forall (fun c => c <> re_model.newline) (chars run) ->
    known_matches pat candidate ->
    known_matches (String "*" pat) (run +:+ candidate)
| known_question_none pat candidate :
    known_matches pat candidate -> known_matches (String "?" pat) candidate
| known_question_one pat c candidate :
    c <> re_model.newline ->
    known_matches pat candidate ->
    known_matches (String "?" pat) (String c candidate)
| known_dot pat c candidate :
    c <> re_model.newline ->
    known_matches pat candidate ->
    known_matches (String "." pat) (String c candidate)
| known_char c pat candidate :
    c <> "*"%char -> c <> "?"%char -> c <> "."%char ->
    known_matches pat candidate ->
    known_matches (String c pat) (String c candidate).

(** A character that is not a quantifier of a regular expression. *)
Definition not_quantifier (c : ascii) : Prop := c <> "*"%char /\ c <> "?"%char.

(** A forced-separate pattern without a wildcard or a bracket. *)
Definition literal_pattern (forced_separate : string) : Prop :=
  Forall (fun c => c <> "*"%char /\ c <> "?"%char /\ c <> "["%char)
         (chars forced_separate).

(** A configuration that names a directory of third-party packages. *)
Definition vendor_config : Config :=
  {| forced_separate := Some [];
     known := <["known_third_party" := ["numpy"; "vendor/"]]> ∅;
     default_section := Some "FIRSTPARTY"; virtual_env := None; verbose := None |}.

(** * Properties *)

(** ** The manager's loops *)

Section ManagerLoops.

Import FindersManager.

Variables (config : Config) (sections : Sections).

Lemma init_loop_appended verbose classes :
  (init_loop verbose config sections classes).2 = instantiated config sections classes.
Proof.
  induction classes as [|finder rest IH]; simpl; [reflexivity|].
  destruct (init_loop verbose config sections rest) as [printed appended].
  simpl in IH. subst appended.
  destruct (class_call finder config sections); [reflexivity|].
  destruct verbose; reflexivity.
Qed.

Lemma instantiated_app before after :
  instantiated config sections (before ++ after)
  = instantiated config sections before ++ instantiated config sections after.
Proof. apply omap_app. Qed.

Lemma instantiated_raises finder e rest :
  class_call finder config sections = Raise e ->
  instantiated config sections (finder :: rest) = instantiated config sections rest.
Proof. intros H. unfold instantiated. simpl. rewrite H. reflexivity. Qed.

Lemma instantiated_returns finder instance rest :
  class_call finder config sections = Ret instance ->
  instantiated config sections (finder :: rest)
  = instance :: instantiated config sections rest.
Proof. intros H. unfold instantiated. simpl. rewrite H. reflexivity. Qed.

End ManagerLoops.

Section FindLoop.

Import FindersManager.

Variable module_name : string.

(** A finder that answers [None] leaves the loop where it was, with
    [section] bound. *)
Lemma find_loop_no_answer verbose finder rest section :
  finder_find finder module_name = Ret None ->
  find_loop verbose (finder :: rest) module_name section
  = find_loop verbose rest module_name (Bound None).
Proof.
  intros H. simpl. rewrite H.
  destruct (find_loop verbose rest module_name (Bound None)); reflexivity.
Qed.

(** Once [section] is bound, a quiet manager passes over a finder that
    raises. *)
Lemma find_loop_raise_bound finder rest e :
  finder_find finder module_name = Raise e ->
  find_loop false (finder :: rest) module_name (Bound None)
  = find_loop false rest module_name (Bound None).
Proof.
  intros H. simpl. rewrite H.
  destruct (find_loop false rest module_name (Bound None)); reflexivity.
Qed.

Lemma find_loop_no_answers verbose before rest section :
  Forall (fun finder => finder_find finder module_name = Ret None) before ->
  before <> [] ->
  find_loop verbose (before ++ rest) module_name section
  = find_loop verbose rest module_name (Bound None).
Proof.
  intros Hall. revert section.
  induction Hall as [|finder before Hf Hall IH]; intros section Hne; [congruence|].
  rewrite <- app_comm_cons, (find_loop_no_answer _ _ _ _ Hf).
  destruct before as [|next before]; [reflexivity|].
  apply IH. discriminate.
Qed.

End FindLoop.

(** ** [FindersManager] *)

(** C1, at the input where the code departs from it. A lookup that raises in
    the first finder of a manager leaves the local variable [section]
    unbound, and the test [section is not None] that follows the [try]
    statement raises [UnboundLocalError]: [find] raises instead of going on
    to the next finder. A verbose manager raises [AttributeError] from the
    handler itself whenever the finder that raised has no [__name__], as
    the instances of every finder class of the module do. *)
Theorem FindersManager_find_first_lookup_raises
  (finder : Finder) (rest : list Finder) (module_name : string) (e : exn)
  (Hraise : finder_find finder module_name = Raise e) :
  FindersManager.find (quiet_manager (finder :: rest)) module_name
  = ([], Raise (UnboundLocalError "local variable 'section' referenced before assignment"))
  /\ (finder_name finder = None ->
      forall section,
        FindersManager.find_loop true (finder :: rest) module_name section
        = ([], Raise (AttributeError "object has no attribute '__name__'"))).
Proof.
  split.
  - unfold FindersManager.find, quiet_manager. simpl. rewrite Hraise. reflexivity.
  - intros Hname section. simpl. rewrite Hraise, Hname. reflexivity.
Qed.

Lemma FindersManager_find_first_lookup_raises_witness :
  FindersManager.find (quiet_manager [default_finder empty_config]) "os"
  = ([], Raise (UnboundLocalError "local variable 'section' referenced before assignment"))
  /\ (finder_name (default_finder empty_config) = None ->
      forall section,
        FindersManager.find_loop true [default_finder empty_config] "os" section
        = ([], Raise (AttributeError "object has no attribute '__name__'"))).
Proof.
  apply (FindersManager_find_first_lookup_raises
           (default_finder empty_config) [] "os" (KeyError "default_section")).
  reflexivity.
Defined.

(** C2, at the input where the code departs from it. [__init__] reads
    [self.finders] when no finders are passed, but the class keeps its
    default classes under the name [_default_finders_classes]: the read
    raises [AttributeError] before any finder is instantiated. The default
    classes are in the order the claim gives. *)
Theorem FindersManager_init_without_finders_raises
  (py : Platform) (config : Config) (sections : Sections) :
  FindersManager.init py config sections None
  = ([], Raise (AttributeError "'FindersManager' object has no attribute 'finders'"))
  /\ map class_name (FindersManager._default_finders_classes py)
     = ["ForcedSeparateFinder"; "LocalFinder"; "KnownPatternFinder"; "PathFinder";
        "PipfileFinder"; "RequirementsFinder"; "DefaultFinder"].
Proof. split; reflexivity. Qed.

(** C7. Given a list of finder classes, [__init__] returns a manager whose
    finders are the instances of the classes whose call returned, in the
    order of the classes: a call that raises is caught and leaves no
    finder, and the classes after it are still called. Taking a class whose
    call raises out of the list gives the same manager, hence the same
    answers from [find]. *)
Theorem FindersManager_init_keeps_instantiated
  (py : Platform) (config : Config) (sections : Sections)
  (classes : list FinderClass) :
  (exists printed,
      FindersManager.init py config sections (Some classes)
      = (printed,
         Ret {| FindersManager.self_verbose := default false (verbose config);
                FindersManager.self_finders := instantiated config sections classes |}))
  /\ (forall before failing after e,
        classes = before ++ failing :: after ->
        class_call failing config sections = Raise e ->
        instantiated config sections classes
        = instantiated config sections before ++ instantiated config sections after
        /\ (FindersManager.init py config sections (Some classes)).2
           = (FindersManager.init py config sections (Some (before ++ after))).2)
  /\ (forall before finder after instance,
        classes = before ++ finder :: after ->
        class_call finder config sections = Ret instance ->
        instantiated config sections classes
        = instantiated config sections before ++ instance
            :: instantiated config sections after).
Proof.
  assert (Hinit : forall cs,
             FindersManager.init py config sections (Some cs)
             = ((FindersManager.init_loop (default false (verbose config)) config sections cs).1,
                Ret {| FindersManager.self_verbose := default false (verbose config);
                       FindersManager.self_finders := instantiated config sections cs |})).
  { intros cs. unfold FindersManager.init.
    pose proof (init_loop_appended config sections (default false (verbose config)) cs) as H.
    destruct (FindersManager.init_loop _ config sections cs) as [printed appended].
    simpl in *. subst appended. reflexivity. }
  split; [|split].
  - eexists. apply Hinit.
  - intros before failing after e -> Hraise.
    assert (Heq : instantiated config sections (before ++ failing :: after)
                  = instantiated config sections before ++ instantiated config sections after).
    { rewrite instantiated_app, (instantiated_raises _ _ _ _ _ Hraise). reflexivity. }
    split; [exact Heq|].
    rewrite !Hinit. simpl. rewrite Heq, instantiated_app. reflexivity.
  - intros before finder after instance -> Hret.
    rewrite instantiated_app, (instantiated_returns _ _ _ _ _ Hret). reflexivity.
Qed.

(** ** [DefaultFinder] *)

(** Without the key [default_section] the lookup of [DefaultFinder]
    raises [KeyError]. *)
Lemma DefaultFinder_find_raises_without_key :
  DefaultFinder.find empty_config "os" = Raise (KeyError "default_section")
  /\ ~ (forall (config : Config) (module_name : string),
          exists section, DefaultFinder.find config module_name = Ret section).
Proof.
  split; [reflexivity|].
  intros H. destruct (H empty_config "os") as [section Hs]. discriminate Hs.
Qed.

(** Where the manager does isolate the lookup of [DefaultFinder]:
    [DefaultFinder.find] returns the configured default section when the
    key [default_section] is present, and raises [KeyError] when it is
    absent; in a quiet manager in which the finders before it have answered
    [None], of which there is at least one, that [KeyError] is caught and
    [find] answers as the manager without the default finder does. *)
Theorem DefaultFinder_find_by_key
  (config : Config) (module_name : string)
  (first : Finder) (before after : list Finder) :
  match default_section config with
  | Some section => DefaultFinder.find config module_name = Ret (Some section)
  | None =>
      DefaultFinder.find config module_name = Raise (KeyError "default_section")
      /\ (Forall (fun finder => finder_find finder module_name = Ret None)
                 (first :: before) ->
          FindersManager.find
            (quiet_manager (first :: before ++ default_finder config :: after))
            module_name
          = FindersManager.find (quiet_manager (first :: before ++ after)) module_name)
  end.
Proof.
  destruct (default_section config) as [section|] eqn:Hkey.
  - unfold DefaultFinder.find. rewrite Hkey. reflexivity.
  - assert (Hraise : DefaultFinder.find config module_name
                     = Raise (KeyError "default_section")).
    { unfold DefaultFinder.find. rewrite Hkey. reflexivity. }
    split; [exact Hraise|].
    intros Hall. unfold FindersManager.find, quiet_manager. simpl FindersManager.self_finders.
    simpl FindersManager.self_verbose.
    rewrite !app_comm_cons.
    rewrite !(find_loop_no_answers module_name false (first :: before)) by (auto; discriminate).
    apply (find_loop_raise_bound module_name (default_finder config) after _ Hraise).
Qed.

(** C9, at the input where the code departs from it. Without the key
    [default_section] the lookup of [DefaultFinder] raises [KeyError], and
    the manager does not turn that into no answer: when [DefaultFinder] is
    the first finder the local variable [section] is still unbound after
    the handler and [find] raises [UnboundLocalError], and in a verbose
    manager the handler itself raises [AttributeError], wherever the finder
    stands. *)
Theorem DefaultFinder_missing_key_escapes
  (config : Config) (module_name : string) (before rest : list Finder)
  (Hkey : default_section config = None)
  (Hbefore : Forall (fun finder => finder_find finder module_name = Ret None) before) :
  DefaultFinder.find config module_name = Raise (KeyError "default_section")
  /\ FindersManager.find (quiet_manager (default_finder config :: rest)) module_name
     = ([], Raise (UnboundLocalError
                     "local variable 'section' referenced before assignment"))
  /\ FindersManager.find
       {| FindersManager.self_verbose := true;
          FindersManager.self_finders := before ++ default_finder config :: rest |}
       module_name
     = ([], Raise (AttributeError "object has no attribute '__name__'")).
Proof.
  assert (Hraise : DefaultFinder.find config module_name
                   = Raise (KeyError "default_section")).
  { unfold DefaultFinder.find. rewrite Hkey. reflexivity. }
  split; [exact Hraise|]. split.
  - unfold FindersManager.find, quiet_manager, default_finder. simpl.
    rewrite Hraise. reflexivity.
  - unfold FindersManager.find.
    cbn [FindersManager.self_verbose FindersManager.self_finders].
    assert (Hhead : forall section,
               FindersManager.find_loop true (default_finder config :: rest)
                 module_name section
               = ([], Raise (AttributeError "object has no attribute '__name__'"))).
    { intros section. unfold default_finder. simpl. rewrite Hraise. reflexivity. }
    destruct before as [|first before]; [apply Hhead|].
    rewrite (find_loop_no_answers module_name true (first :: before))
      by (auto; discriminate).
    apply Hhead.
Qed.

Lemma DefaultFinder_missing_key_escapes_witness :
  default_section empty_config = None
  /\ Forall (fun finder => finder_find finder "os" = Ret None)
            [{| finder_name := None; finder_find := LocalFinder.find default_sections |}]
  /\ DefaultFinder.find empty_config "os" = Raise (KeyError "default_section")
  /\ FindersManager.find (quiet_manager [default_finder empty_config]) "os"
     = ([], Raise (UnboundLocalError
                     "local variable 'section' referenced before assignment"))
  /\ FindersManager.find
       {| FindersManager.self_verbose := true;
          FindersManager.self_finders :=
            [{| finder_name := None; finder_find := LocalFinder.find default_sections |}]
              ++ default_finder empty_config :: [] |}
       "os"
     = ([], Raise (AttributeError "object has no attribute '__name__'")).
Proof.
  assert (Hbefore :
            Forall (fun finder => finder_find finder "os" = Ret None)
                   [{| finder_name := None;
                       finder_find := LocalFinder.find default_sections |}])
    by (repeat constructor).
  split; [reflexivity|]. split; [exact Hbefore|].
  exact (DefaultFinder_missing_key_escapes empty_config "os" _ [] eq_refl Hbefore).
Defined.

(** ** Generators *)

Lemma gen_for_yields {A B} (xs : list A) (body : A -> gen B) (ys : list B) :
  gen_for xs body = (ys, None) -> ys = flat_map (fun x => (body x).1) xs.
Proof.
  revert ys. induction xs as [|x rest IH]; simpl; intros ys H.
  - congruence.
  - destruct (body x) as [here [e|]]; [discriminate|].
    destruct (gen_for rest body) as [later err].
    injection H as <- ->. simpl. f_equal. apply IH. reflexivity.
Qed.

Lemma gen_bind_yields {A B} (g : gen A) (body : A -> gen B) (ys : list B) :
  gen_bind g body = (ys, None) -> ys = flat_map (fun x => (body x).1) g.1.
Proof.
  unfold gen_bind. intros H. apply gen_for_yields.
  destruct (gen_for g.1 body) as [zs [e|]]; [discriminate|].
  injection H as <- _. reflexivity.
Qed.

Lemma map_flat_map {A B C} (f : B -> C) (g : A -> list B) (l : list A) :
  map f (flat_map g l) = flat_map (fun x => map f (g x)) l.
Proof.
  induction l as [|x l IH]; simpl; [reflexivity|].
  rewrite map_app, IH. reflexivity.
Qed.

(** ** [ReqsBaseFinder] *)

Section Reqs.

Import ReqsBaseFinder.

Lemma _normalize_name_lookup mapping name :
  _normalize_name mapping name
  = replace "-" "_"
      (lower match mapping with
             | Some m => default name (m !! name)
             | None => name
             end).
Proof.
  unfold _normalize_name. destruct mapping as [m|]; [|reflexivity].
  destruct (decide (m = ∅)) as [->|]; [|reflexivity].
  rewrite lookup_empty. reflexivity.
Qed.

Lemma _load_names_normalized py cls mapping self_path loaded :
  _load_names py cls mapping self_path = Ret loaded ->
  loaded = map (_normalize_name mapping) (yielded_names py cls self_path).
Proof.
  unfold _load_names, yielded_names. intros H.
  destruct (gen_bind _ _) as [ys [e|]] eqn:Hgen; [discriminate|].
  injection H as <-.
  apply gen_bind_yields in Hgen. rewrite Hgen, map_flat_map.
  apply flat_map_ext. intros path.
  destruct (_get_names cls path); reflexivity.
Qed.

Lemma find_loop_elem sections loaded module_name :
  find_loop sections loaded module_name
  = if decide (module_name ∈ loaded) then Some (THIRDPARTY sections) else None.
Proof.
  induction loaded as [|name rest IH]; simpl.
  - destruct (decide (module_name ∈ [])) as [Hin|]; [|reflexivity].
    inversion Hin.
  - destruct (String.eqb_spec module_name name) as [->|Hne].
    + rewrite decide_True; [reflexivity|]. left.
    + rewrite IH.
      destruct (decide (module_name ∈ rest)) as [Hin|Hnin].
      * rewrite decide_True; [reflexivity|]. right. exact Hin.
      * rewrite decide_False; [reflexivity|].
        intros Hin. inversion Hin; subst; [congruence|contradiction].
Qed.

End Reqs.

(** C8. For a finder of a manifest class built by [__init__]: a disabled
    class answers [None] to every module name; an enabled one holds the
    names read from the manifests, each looked up in the mapping (kept when
    absent), lowercased and with hyphens turned into underscores, and
    answers the third-party section exactly when the lowercased first
    dotted component of the module name is not empty and is one of them,
    [None] otherwise. Without an entry in the mapping, [Django] becomes
    [django], [django-haystack] becomes [django_haystack] and
    [Flask-RESTFul] becomes [flask_restful]. *)
Theorem ReqsBaseFinder_find_loaded_names
  (py : Platform) (cls : ReqsBaseFinder.subclass) (sections : Sections)
  (self_path : string) (self : option ReqsBaseFinder.t) (module_name : string)
  (Hinit : ReqsBaseFinder.init py cls self_path = Ret self) :
  (if ReqsBaseFinder.enabled cls then
     exists mapping loaded,
       self = Some {| ReqsBaseFinder.mapping := mapping; ReqsBaseFinder.names := loaded |}
       /\ loaded = map (ReqsBaseFinder._normalize_name mapping)
                       (yielded_names py cls self_path)
       /\ ReqsBaseFinder.find cls sections self module_name
          = Ret (if decide (first_component module_name <> EmptyString
                            /\ first_component module_name ∈ loaded)
                 then Some (THIRDPARTY sections) else None)
   else ReqsBaseFinder.find cls sections self module_name = Ret None)
  /\ (forall mapping name,
        ReqsBaseFinder._normalize_name mapping name
        = replace "-" "_"
            (lower match mapping with
                   | Some m => default name (m !! name)
                   | None => name
                   end))
  /\ ReqsBaseFinder._normalize_name None "Django" = "django"
  /\ ReqsBaseFinder._normalize_name None "django-haystack" = "django_haystack"
  /\ ReqsBaseFinder._normalize_name None "Flask-RESTFul" = "flask_restful".
Proof.
  split; [|split; [apply _normalize_name_lookup|repeat split; reflexivity]].
  unfold ReqsBaseFinder.init in Hinit. unfold ReqsBaseFinder.find.
  destruct (ReqsBaseFinder.enabled cls); [|reflexivity].
  destruct (ReqsBaseFinder._load_mapping py) as [mapping|e]; [|discriminate].
  simpl in Hinit.
  destruct (ReqsBaseFinder._load_names py cls mapping self_path) as [loaded|e] eqn:Hload;
    [|discriminate].
  simpl in Hinit. injection Hinit as <-.
  exists mapping, loaded. split; [reflexivity|].
  split; [apply _load_names_normalized; exact Hload|].
  simpl. unfold first_component.
  destruct (partition "." module_name) as [[component found] submodules]. simpl.
  rewrite find_loop_elem. unfold truthy.
  destruct (String.eqb_spec (lower component) EmptyString) as [Hempty|Hne]; simpl.
  - rewrite decide_False; [reflexivity|]. intros [H _]. contradiction.
  - destruct (decide (lower component ∈ loaded)) as [Hin|Hnin].
    + rewrite decide_True; [reflexivity|]. split; assumption.
    + rewrite decide_False; [reflexivity|]. intros [_ H]. contradiction.
Qed.

Lemma ReqsBaseFinder_find_loaded_names_witness :
  let self :=
    Some {| ReqsBaseFinder.mapping := None;
            ReqsBaseFinder.names := ["django"; "django_haystack"; "flask_restful"] |} in
  ReqsBaseFinder.init project_platform (RequirementsFinder.cls project_platform) "."
  = Ret self
  /\ ReqsBaseFinder.find (RequirementsFinder.cls project_platform) default_sections
       self "Django.db.models"
     = Ret (Some "THIRDPARTY")
  /\ ReqsBaseFinder.find (RequirementsFinder.cls project_platform) default_sections
       self "flask"
     = Ret None.
Proof.
  intros self.
  assert (Hinit : ReqsBaseFinder.init project_platform
                    (RequirementsFinder.cls project_platform) "." = Ret self)
    by (vm_compute; reflexivity).
  split; [exact Hinit|]. split.
  - destruct (ReqsBaseFinder_find_loaded_names project_platform
                (RequirementsFinder.cls project_platform) default_sections "."
                self "Django.db.models" Hinit) as [H _].
    change (ReqsBaseFinder.enabled (RequirementsFinder.cls project_platform))
      with true in H.
    cbv iota in H. destruct H as (mapping & loaded & Hself & _ & Hfind).
    rewrite Hfind. injection Hself as _ <-. vm_compute. reflexivity.
  - destruct (ReqsBaseFinder_find_loaded_names project_platform
                (RequirementsFinder.cls project_platform) default_sections "."
                self "flask" Hinit) as [H _].
    change (ReqsBaseFinder.enabled (RequirementsFinder.cls project_platform))
      with true in H.
    cbv iota in H. destruct H as (mapping & loaded & Hself & _ & Hfind).
    rewrite Hfind. injection Hself as _ <-. vm_compute. reflexivity.
Defined.

(** ** Paths *)

Section Paths.

Import posixpath.

#[local] Arguments Ascii.eqb : simpl never.

Lemma rfind_lower_bound c s : (-1 <= rfind c s)%Z.
Proof.
  induction s as [|a s IH]; simpl; [lia|].
  destruct (0 <=? rfind c s)%Z eqn:H; [lia|].
  destruct (Ascii.eqb a c); lia.
Qed.

Lemma substring_0_0 s : String.substring 0 0 s = EmptyString.
Proof. destruct s; reflexivity. Qed.

Lemma slice_to_rfind p : slice_to (rfind sep p + 1) p = up_to_last_sep p.
Proof.
  unfold slice_to. induction p as [|c p IH]; [reflexivity|].
  simpl rfind. simpl up_to_last_sep.
  pose proof (rfind_lower_bound sep p) as Hlb.
  destruct (0 <=? rfind sep p)%Z eqn:Hfound.
  - apply Z.leb_le in Hfound.
    replace (Z.to_nat (rfind sep p + 1 + 1)) with (S (Z.to_nat (rfind sep p + 1))) by lia.
    simpl. rewrite IH. reflexivity.
  - apply Z.leb_gt in Hfound.
    destruct (Ascii.eqb c sep) eqn:Hc.
    + apply Ascii.eqb_eq in Hc. subst c. simpl. rewrite substring_0_0. reflexivity.
    + reflexivity.
Qed.

Lemma append_cons c a b : String c a +:+ b = String c (a +:+ b).
Proof. reflexivity. Qed.

Lemma up_to_last_sep_prefix p : exists t, p = up_to_last_sep p +:+ t.
Proof.
  induction p as [|c p [t IH]]; simpl; [exists EmptyString; reflexivity|].
  destruct (0 <=? rfind sep p)%Z.
  - exists t. rewrite append_cons. f_equal. exact IH.
  - destruct (Ascii.eqb c sep) eqn:Hc.
    + apply Ascii.eqb_eq in Hc. subst c. exists p. reflexivity.
    + exists (String c p). reflexivity.
Qed.

Lemma rstrip_if_prefix drop s : exists t, s = rstrip_if drop s +:+ t.
Proof.
  induction s as [|c s [t IH]]; simpl; [exists EmptyString; reflexivity|].
  destruct (rstrip_if drop s) as [|a r].
  - destruct (drop c); [exists (String c s)|exists s]; reflexivity.
  - exists t. rewrite append_cons. f_equal. exact IH.
Qed.

Lemma append_length a b : String.length (a +:+ b) = String.length a + String.length b.
Proof.
  induction a as [|c a IH]; [reflexivity|].
  rewrite append_cons. simpl. rewrite IH. reflexivity.
Qed.

Lemma append_empty_r a : a +:+ EmptyString = a.
Proof.
  induction a as [|c a IH]; [reflexivity|].
  rewrite append_cons, IH. reflexivity.
Qed.

Lemma append_assoc a b c : (a +:+ b) +:+ c = a +:+ b +:+ c.
Proof.
  induction a as [|x a IH]; [reflexivity|].
  rewrite !append_cons, IH. reflexivity.
Qed.

Lemma dirname_prefix p : exists t, p = dirname p +:+ t.
Proof.
  unfold dirname. rewrite slice_to_rfind.
  destruct (up_to_last_sep_prefix p) as [t Ht].
  destruct (truthy _ && _); [|exists t; exact Ht].
  destruct (rstrip_if_prefix (Ascii.eqb sep) (up_to_last_sep p)) as [u Hu].
  exists (u +:+ t). rewrite <- append_assoc, <- Hu. exact Ht.
Qed.

(** The parent of a path is the path itself or a shorter string. *)
Lemma dirname_shorter p : dirname p <> p -> String.length (dirname p) < String.length p.
Proof.
  intros Hne. destruct (dirname_prefix p) as [t Ht].
  destruct t as [|c t].
  - rewrite append_empty_r in Ht. congruence.
  - rewrite Ht at 2. rewrite append_length. simpl. lia.
Qed.

End Paths.

(** ** The walk over the ancestors *)

Section Parents.

Import posixpath ReqsBaseFinder.

Lemma _get_parents_loop_stops fuel path : _get_parents_loop fuel path path = Some [].
Proof. destruct fuel; simpl; rewrite String.eqb_refl; reflexivity. Qed.

Lemma _get_parents_loop_step fuel path prev :
  path <> prev ->
  _get_parents_loop (S fuel) path prev
  = cons path <$> _get_parents_loop fuel (dirname path) path.
Proof.
  intros Hne. simpl. apply String.eqb_neq in Hne. rewrite Hne. reflexivity.
Qed.

(** With more fuel than the path is long the loop ends, and what it yields
    is a chain of parents that starts at the path and ends where [dirname]
    changes nothing. *)
Lemma _get_parents_loop_total fuel path prev :
  String.length path < fuel ->
  path <> prev ->
  exists rest,
    _get_parents_loop fuel path prev = Some (path :: rest)
    /\ ancestor_chain (path :: rest)
    /\ (forall l, last (path :: rest) = Some l -> dirname l = l)
    /\ length (path :: rest) <= S (String.length path).
Proof.
  revert path prev. induction fuel as [|fuel IH]; intros path prev Hfuel Hne; [lia|].
  rewrite (_get_parents_loop_step _ _ _ Hne).
  destruct (String.eqb_spec (dirname path) path) as [Hfix|Hmove].
  - exists []. rewrite Hfix, _get_parents_loop_stops. simpl.
    repeat split; [|lia]. intros l [= <-]. exact Hfix.
  - pose proof (dirname_shorter path Hmove) as Hshort.
    destruct (IH (dirname path) path) as (rest & Hloop & Hchain & Hlast & Hlen); [lia|exact Hmove|].
    exists (dirname path :: rest). rewrite Hloop. simpl.
    split; [reflexivity|]. split; [|split].
    + split; [reflexivity|]. split; [exact Hmove|exact Hchain].
    + intros l Hl. apply Hlast. rewrite <- Hl. reflexivity.
    + simpl in Hlen. lia.
Qed.

End Parents.

Section Roots.

Import posixpath ReqsBaseFinder.

#[local] Arguments Ascii.eqb : simpl never.

Lemma rstrip_sep_empty s : rstrip_if (Ascii.eqb sep) s = EmptyString -> all_seps s.
Proof.
  unfold all_seps. induction s as [|c s IH]; simpl; [reflexivity|].
  destruct (rstrip_if (Ascii.eqb sep) s); [|discriminate].
  destruct (Ascii.eqb sep c) eqn:Hc; [|discriminate].
  intros _. apply Ascii.eqb_eq in Hc. subst c. f_equal. apply IH. reflexivity.
Qed.

Lemma rstrip_sep_shorter u :
  String.length (rstrip_if (Ascii.eqb sep) (u +:+ sep_str)) <= String.length u.
Proof.
  induction u as [|c u IH]; [simpl; lia|].
  simpl String.append. simpl rstrip_if.
  destruct (rstrip_if (Ascii.eqb sep) (u +:+ sep_str)).
  - destruct (Ascii.eqb sep c); simpl; lia.
  - simpl in *. lia.
Qed.

Lemma rfind_up_to_last_sep p : (0 <= rfind sep p)%Z -> up_to_last_sep p <> EmptyString.
Proof.
  destruct p as [|c p]; simpl; [lia|].
  destruct (0 <=? rfind sep p)%Z; [discriminate|].
  destruct (Ascii.eqb c sep); [discriminate|lia].
Qed.

Lemma up_to_last_sep_ends p :
  up_to_last_sep p = EmptyString \/ exists u, up_to_last_sep p = u +:+ sep_str.
Proof.
  induction p as [|c p IH]; simpl; [left; reflexivity|].
  destruct (0 <=? rfind sep p)%Z eqn:Hfound.
  - right. apply Z.leb_le, rfind_up_to_last_sep in Hfound.
    destruct IH as [Hempty|[u Hu]]; [contradiction|].
    exists (String c u). rewrite Hu. reflexivity.
  - destruct (Ascii.eqb c sep); [right; exists EmptyString|left]; reflexivity.
Qed.

(** [dirname] leaves unchanged only the empty path and the paths made of
    slashes: the relative walk ends at the former, the absolute one at the
    root. *)
Lemma dirname_fixed p : dirname p = p -> p = EmptyString \/ all_seps p.
Proof.
  unfold dirname. rewrite slice_to_rfind.
  destruct (up_to_last_sep_prefix p) as [t Ht].
  destruct (truthy (up_to_last_sep p)) eqn:Htruthy; simpl.
  - destruct (String.eqb_spec (up_to_last_sep p)
                (repeat_char sep (String.length (up_to_last_sep p)))) as [Hseps|Hother]; simpl.
    + intros Heq. right. unfold all_seps. rewrite <- Heq at 1. rewrite Hseps at 1.
      rewrite Heq. reflexivity.
    + intros Heq. exfalso.
      destruct (up_to_last_sep_ends p) as [Hempty|[u Hu]].
      * rewrite Hempty in Htruthy. discriminate.
      * pose proof (rstrip_sep_shorter u) as Hlen.
        rewrite <- Hu, Heq in Hlen.
        rewrite Ht, Hu, !append_length in Hlen. simpl in Hlen. lia.
  - intros Heq. left. rewrite <- Heq.
    unfold truthy in Htruthy. apply negb_false_iff, String.eqb_eq in Htruthy.
    exact Htruthy.
Qed.

Lemma isabs_inv p : isabs p = true -> exists p', p = String sep p'.
Proof.
  unfold isabs, startswith, sep_str.
  destruct p as [|c p]; cbn [String.prefix]; [discriminate|].
  destruct (ascii_dec sep c) as [<-|]; [|discriminate].
  intros _. exists p. reflexivity.
Qed.

Lemma isabs_cons p : isabs (String sep p) = true.
Proof.
  unfold isabs, startswith, sep_str. cbn [String.prefix].
  destruct (ascii_dec sep sep); [destruct p; reflexivity|congruence].
Qed.

Lemma dirname_isabs p : isabs p = true -> isabs (dirname p) = true.
Proof.
  intros Habs. apply isabs_inv in Habs as [p' ->].
  unfold dirname. rewrite slice_to_rfind.
  assert (Hhead : exists h, up_to_last_sep (String sep p') = String sep h).
  { simpl. destruct (0 <=? rfind sep p')%Z; eexists; reflexivity. }
  destruct Hhead as [h ->].
  destruct (truthy (String sep h)
            && negb (String.eqb (String sep h)
                       (repeat_char sep (String.length (String sep h))))) eqn:Hcond;
    [|apply isabs_cons].
  apply andb_true_iff in Hcond as [_ Hother].
  apply negb_true_iff, String.eqb_neq in Hother.
  simpl rstrip_if.
  destruct (rstrip_if (Ascii.eqb sep) h) eqn:Hstrip; [|apply isabs_cons].
  exfalso. apply Hother. apply rstrip_sep_empty in Hstrip.
  simpl. f_equal. exact Hstrip.
Qed.

Lemma normpath_isabs p : isabs p = true -> isabs (normpath p) = true.
Proof.
  intros Habs. destruct (isabs_inv p Habs) as [p' ->]. unfold normpath.
  change (truthy (String sep p')) with true. cbn [negb].
  unfold isabs in Habs. rewrite Habs.
  destruct (startswith (String sep p') (repeat_char sep 2)
            && negb (startswith (String sep p') (repeat_char sep 3)));
    match goal with
    | |- context [Py.join sep_str ?comps] => generalize (Py.join sep_str comps)
    end; intros joined.
  - change (isabs (String sep (String sep joined)) = true). apply isabs_cons.
  - change (isabs (String sep joined) = true). apply isabs_cons.
Qed.

Lemma join_isabs a b : isabs a = true -> isabs (join a b) = true.
Proof.
  intros Habs. unfold join.
  destruct (startswith b sep_str) eqn:Hb; [exact Hb|].
  apply isabs_inv in Habs as [a' ->].
  destruct (negb (truthy (String sep a')) || endswith (String sep a') sep_str);
    apply isabs_cons.
Qed.

Lemma abspath_isabs cwd path : isabs cwd = true -> isabs (abspath cwd path) = true.
Proof.
  intros Hcwd. unfold abspath. apply normpath_isabs.
  destruct (isabs path) eqn:Hpath; [exact Hpath|].
  apply join_isabs. exact Hcwd.
Qed.

Lemma start_dir_isabs py self_path :
  isabs (os_getcwd py) = true -> isabs (start_dir py self_path) = true.
Proof.
  intros Hcwd. unfold start_dir.
  destruct (os_path_isfile py _); [apply dirname_isabs|]; apply abspath_isabs; exact Hcwd.
Qed.

Lemma ancestor_chain_isabs path rest l :
  ancestor_chain (path :: rest) -> isabs path = true ->
  last (path :: rest) = Some l -> isabs l = true.
Proof.
  revert path. induction rest as [|parent rest IH]; intros path Hchain Habs Hlast.
  - injection Hlast as <-. exact Habs.
  - destruct Hchain as (-> & _ & Hchain).
    apply (IH (dirname path)); [exact Hchain|apply dirname_isabs; exact Habs|].
    rewrite <- Hlast. reflexivity.
Qed.

Lemma _get_parents_loop_more_fuel fuel fuel' path prev parents :
  _get_parents_loop fuel path prev = Some parents -> fuel <= fuel' ->
  _get_parents_loop fuel' path prev = Some parents.
Proof.
  revert fuel' path prev parents.
  induction fuel as [|fuel IH]; intros fuel' path prev parents Hloop Hle.
  - simpl in Hloop. destruct (String.eqb_spec path prev) as [->|]; [|discriminate].
    rewrite _get_parents_loop_stops. exact Hloop.
  - destruct fuel' as [|fuel']; [lia|].
    simpl in *. destruct (String.eqb path prev); [exact Hloop|].
    destruct (_get_parents_loop fuel (dirname path) path) as [l|] eqn:Hrec; [|discriminate].
    rewrite (IH fuel' _ _ _ Hrec) by lia. exact Hloop.
Qed.

End Roots.

(** C10. The walk over the ancestors ends for every starting path. With
    more fuel than the path is long the loop of [_get_parents] returns; for
    a non-empty path it yields the path and then each parent in turn, every
    one different from the one before, and it stops at the first path that
    [dirname] leaves unchanged, which is the empty path or a path of
    slashes only. In [_get_files], where the working directory is absolute,
    the walk starts at the absolute starting directory and ends at the
    root, it yields at most one directory more than the starting directory
    has characters, and [_get_files] scans exactly the directories of the
    walk. *)
Theorem ReqsBaseFinder_get_parents_terminates
  (py : Platform) (self_path : string)
  (Hcwd : posixpath.isabs (os_getcwd py) = true) :
  (forall path : string,
      exists parents,
        (forall fuel, String.length path < fuel ->
                      ReqsBaseFinder._get_parents_loop fuel path EmptyString = Some parents)
        /\ ReqsBaseFinder._get_parents path = parents
        /\ (path = EmptyString -> parents = [])
        /\ (path <> EmptyString -> head parents = Some path)
        /\ ancestor_chain parents
        /\ (forall l, last parents = Some l ->
                      posixpath.dirname l = l /\ (l = EmptyString \/ all_seps l))
        /\ length parents <= S (String.length path))
  /\ exists rest,
      let start := ReqsBaseFinder.start_dir py self_path in
      ReqsBaseFinder._get_parents start = start :: rest
      /\ posixpath.isabs start = true
      /\ (forall l, last (start :: rest) = Some l ->
                    posixpath.isabs l = true /\ all_seps l)
      /\ forall cls,
          ReqsBaseFinder._get_files py cls self_path
          = gen_for (start :: rest) (ReqsBaseFinder._get_files_from_dir cls).
Proof.
  assert (Hany : forall path : string,
      exists parents,
        (forall fuel, String.length path < fuel ->
                      ReqsBaseFinder._get_parents_loop fuel path EmptyString = Some parents)
        /\ ReqsBaseFinder._get_parents path = parents
        /\ (path = EmptyString -> parents = [])
        /\ (path <> EmptyString -> head parents = Some path)
        /\ ancestor_chain parents
        /\ (forall l, last parents = Some l ->
                      posixpath.dirname l = l /\ (l = EmptyString \/ all_seps l))
        /\ length parents <= S (String.length path)).
  { intros path. destruct (String.eqb_spec path EmptyString) as [->|Hne].
    - exists []. repeat split; try (simpl; lia); try discriminate.
      + intros fuel _. apply _get_parents_loop_stops.
      + congruence.
    - destruct (_get_parents_loop_total (S (String.length path)) path EmptyString)
        as (rest & Hloop & Hchain & Hlast & Hlen); [lia|exact Hne|].
      exists (path :: rest). split; [|split; [|split; [|split; [|split; [|split]]]]].
      + intros fuel Hfuel.
        apply (_get_parents_loop_more_fuel (S (String.length path))); [exact Hloop|lia].
      + unfold ReqsBaseFinder._get_parents. rewrite Hloop. reflexivity.
      + contradiction.
      + reflexivity.
      + exact Hchain.
      + intros l Hl. split; [apply Hlast; exact Hl|].
        apply dirname_fixed, Hlast, Hl.
      + exact Hlen. }
  split; [exact Hany|].
  pose proof (start_dir_isabs py self_path Hcwd) as Habs.
  destruct (Hany (ReqsBaseFinder.start_dir py self_path))
    as (parents & _ & Hparents & _ & Hhead & Hchain & Hlast & _).
  assert (Hne : ReqsBaseFinder.start_dir py self_path <> EmptyString).
  { intros Hempty. rewrite Hempty in Habs. discriminate. }
  specialize (Hhead Hne).
  destruct parents as [|first rest]; [discriminate|].
  injection Hhead as ->.
  exists rest. cbv zeta.
  split; [exact Hparents|]. split; [exact Habs|]. split.
  - intros l Hl.
    assert (Hl_abs : posixpath.isabs l = true)
      by (apply (ancestor_chain_isabs (ReqsBaseFinder.start_dir py self_path) rest);
          assumption).
    split; [exact Hl_abs|].
    destruct (Hlast l Hl) as [_ [->|Hseps]]; [discriminate|exact Hseps].
  - intros cls. unfold ReqsBaseFinder._get_files. rewrite Hparents. reflexivity.
Qed.

Lemma ReqsBaseFinder_get_parents_terminates_witness :
  posixpath.isabs (os_getcwd project_platform) = true
  /\ ReqsBaseFinder._get_parents (ReqsBaseFinder.start_dir project_platform ".")
     = ["/home/u/proj/src"; "/home/u/proj"; "/home/u"; "/home"; "/"]
  /\ ReqsBaseFinder._get_parents "a/b" = ["a/b"; "a"; EmptyString].
Proof.
  assert (Hcwd : posixpath.isabs (os_getcwd project_platform) = true)
    by (vm_compute; reflexivity).
  split; [exact Hcwd|].
  destruct (ReqsBaseFinder_get_parents_terminates project_platform "." Hcwd)
    as (Hany & _).
  split.
  - destruct (Hany (ReqsBaseFinder.start_dir project_platform "."))
      as (parents & Hloop & <- & _).
    vm_compute. reflexivity.
  - destruct (Hany "a/b") as (parents & Hloop & <- & _).
    vm_compute. reflexivity.
Defined.

(** ** [RequirementsFinder] *)

(** C6, at the input where the code departs from it. For an entry that is a
    directory, [_get_files_from_dir] lists the scanned directory again, not
    the entry, and joins what it finds to the scanned directory: with
    [/proj/requirements/base.txt], [/proj/requirements/dev.in] and
    [/proj/notes.txt] on disk it yields [/proj/notes.txt], a file whose name
    has nothing to do with requirements, and neither of the two files of
    the requirements directory. *)
Theorem RequirementsFinder_get_files_from_dir_lists_parent :
  RequirementsFinder._get_files_from_dir requirements_dir_platform "/proj"
  = (["/proj/notes.txt"], None)
  /\ manifests_as_specified requirements_dir_platform "/proj"
     = (["/proj/requirements/base.txt"; "/proj/requirements/dev.in"], None).
Proof. split; vm_compute; reflexivity. Qed.

(** ** The model of [fnmatch] *)

Section Glob.

Import fnmatch_model.

#[local] Arguments Ascii.eqb : simpl never.

Lemma fnmatch_pat_star pat name :
  fnmatch_pat (String "*" pat) name
  = fnmatch_pat pat name
    || match name with
       | EmptyString => false
       | String _ name' => fnmatch_pat (String "*" pat) name'
       end.
Proof. destruct name; reflexivity. Qed.

Lemma fnmatch_pat_question pat name :
  fnmatch_pat (String "?" pat) name
  = match name with
    | EmptyString => false
    | String _ name' => fnmatch_pat pat name'
    end.
Proof. reflexivity. Qed.

Lemma fnmatch_pat_char c pat name :
  c <> "*"%char -> c <> "?"%char ->
  fnmatch_pat (String c pat) name
  = match name with
    | EmptyString => false
    | String a name' => Ascii.eqb a c && fnmatch_pat pat name'
    end.
Proof.
  intros Hstar Hquestion. cbn [fnmatch_pat].
  apply Ascii.eqb_neq in Hstar, Hquestion. rewrite Hstar, Hquestion. reflexivity.
Qed.

Lemma fnmatch_pat_star_run pat run name :
  fnmatch_pat pat name = true -> fnmatch_pat (String "*" pat) (run +:+ name) = true.
Proof.
  intros H. induction run as [|c run IH].
  - change (EmptyString +:+ name) with name.
    rewrite fnmatch_pat_star, H. reflexivity.
  - rewrite append_cons, fnmatch_pat_star, IH. apply orb_true_r.
Qed.

Lemma fnmatch_pat_sound pat : forall name,
  fnmatch_pat pat name = true -> glob_matches pat name.
Proof.
  induction pat as [|p pat IH]; intros name.
  - simpl. intros H. apply String.eqb_eq in H. subst. constructor.
  - destruct (Ascii.eqb_spec p "*") as [->|Hstar].
    + induction name as [|c name IHname]; rewrite fnmatch_pat_star; intros H.
      * rewrite orb_false_r in H.
        apply (glob_star pat EmptyString EmptyString). apply IH. exact H.
      * apply orb_true_iff in H as [H|H].
        -- apply (glob_star pat EmptyString). apply IH. exact H.
        -- specialize (IHname H). inversion IHname as [|pat' run name' Hrest| |]; subst.
           ++ apply (glob_star pat (String c run)). exact Hrest.
           ++ congruence.
    + destruct (Ascii.eqb_spec p "?") as [->|Hquestion].
      * rewrite fnmatch_pat_question. destruct name as [|c name]; [discriminate|].
        intros H. constructor. apply IH. exact H.
      * rewrite (fnmatch_pat_char _ _ _ Hstar Hquestion).
        destruct name as [|c name]; [discriminate|].
        intros H. apply andb_true_iff in H as [Hc H].
        apply Ascii.eqb_eq in Hc. subst c. constructor; auto.
Qed.

Lemma fnmatch_pat_complete pat name :
  glob_matches pat name -> fnmatch_pat pat name = true.
Proof.
  induction 1 as [|pat run name _ IH|pat c name _ IH|c pat name Hstar Hquestion _ IH].
  - reflexivity.
  - apply fnmatch_pat_star_run. exact IH.
  - rewrite fnmatch_pat_question. exact IH.
  - rewrite (fnmatch_pat_char _ _ _ Hstar Hquestion). cbv iota.
    rewrite Ascii.eqb_refl. exact IH.
Qed.

(** The model of [fnmatch] is glob matching. *)
Lemma fnmatch_glob name pat : fnmatch name pat = true <-> glob_matches pat name.
Proof. split; [apply fnmatch_pat_sound|apply fnmatch_pat_complete]. Qed.

(** A dot before the pattern asks for a dot before the name. *)
Lemma fnmatch_dot name pat :
  fnmatch name ("." +:+ pat) = true
  <-> exists rest, name = "." +:+ rest /\ fnmatch rest pat = true.
Proof.
  unfold fnmatch. change ("." +:+ pat) with (String "." pat).
  rewrite fnmatch_pat_char by discriminate.
  split.
  - destruct name as [|c name]; [discriminate|].
    intros H. apply andb_true_iff in H as [Hc H]. apply Ascii.eqb_eq in Hc. subst c.
    exists name. split; [reflexivity|exact H].
  - intros (rest & -> & H). change ("." +:+ rest) with (String "." rest).
    cbv iota. rewrite Ascii.eqb_refl. exact H.
Qed.

End Glob.

(** ** [ForcedSeparateFinder] *)

Section ForcedSeparate.

Import ForcedSeparateFinder.

Lemma endswith_append s suffix : endswith (s +:+ suffix) suffix = true.
Proof.
  induction s as [|c s IH].
  - change (EmptyString +:+ suffix) with suffix.
    destruct suffix; simpl; rewrite ?Ascii.eqb_refl, ?String.eqb_refl; reflexivity.
  - rewrite append_cons. cbn [endswith]. rewrite IH. apply orb_true_r.
Qed.

Lemma path_glob_endswith forced_separate :
  endswith (path_glob forced_separate) "*" = true.
Proof.
  unfold path_glob. destruct (endswith forced_separate "*") eqn:H; simpl.
  - exact H.
  - apply endswith_append.
Qed.

Lemma find_loop_first py patterns module_name :
  match find_loop py patterns module_name with
  | Some found =>
      exists before after,
        patterns = before ++ found :: after
        /\ forced_separate_matches py module_name found = true
        /\ Forall (fun p => forced_separate_matches py module_name p = false) before
  | None => Forall (fun p => forced_separate_matches py module_name p = false) patterns
  end.
Proof.
  induction patterns as [|p rest IH]; simpl; [constructor|].
  fold (forced_separate_matches py module_name p).
  destruct (forced_separate_matches py module_name p) eqn:Hp.
  - exists [], rest. repeat split; [exact Hp|constructor].
  - destruct (find_loop py rest module_name) as [found|].
    + destruct IH as (before & after & -> & Hfound & Hbefore).
      exists (p :: before), after. repeat split; [exact Hfound|].
      constructor; assumption.
    + constructor; assumption.
Qed.

End ForcedSeparate.


(** X24. With a configured [forced_separate] list, every pattern
    that does not end in [*] gets one appended; a pattern matches when the
    module name matches the wildcarded pattern or matches the wildcarded
    pattern with a dot put before it, that is, when the module name is a dot
    followed by a name the wildcarded pattern matches; [find] returns the
    first pattern of the list that matches, as it is written in the list,
    and [None] when no pattern matches. On a POSIX platform, for patterns
    without a bracket, [fnmatch] is case-sensitive glob matching: [*] for
    any run of characters, [?] for any single character. *)
Theorem ForcedSeparateFinder_find_first_match
  (py : Platform) (config : Config) (patterns : list string) (module_name : string)
  (Hkey : forced_separate config = Some patterns) :
  (forall p,
      ForcedSeparateFinder.path_glob p = (if endswith p "*" then p else p +:+ "*")
      /\ endswith (ForcedSeparateFinder.path_glob p) "*" = true)
  /\ (exists answer,
        ForcedSeparateFinder.find py config module_name = Ret answer
        /\ match answer with
           | Some found =>
               exists before after,
                 patterns = before ++ found :: after
                 /\ forced_separate_matches py module_name found = true
                 /\ Forall (fun p => forced_separate_matches py module_name p = false)
                           before
           | None =>
               Forall (fun p => forced_separate_matches py module_name p = false)
                      patterns
           end)
  /\ (forall name pat, fnmatch_model.fnmatch name pat = true <-> glob_matches pat name)
  /\ (forall name pat,
        fnmatch_model.fnmatch name ("." +:+ pat) = true
        <-> exists rest, name = "." +:+ rest /\ fnmatch_model.fnmatch rest pat = true).
Proof.
  split; [|split; [|split; [apply fnmatch_glob|apply fnmatch_dot]]].
  - intros p. split; [|apply path_glob_endswith].
    unfold ForcedSeparateFinder.path_glob. destruct (endswith p "*"); reflexivity.
  - unfold ForcedSeparateFinder.find. rewrite Hkey.
    eexists. split; [reflexivity|]. apply find_loop_first.
Qed.

Lemma ForcedSeparateFinder_find_first_match_witness :
  forced_separate (forced_separate_only ["legacy*"; "foo"]) = Some ["legacy*"; "foo"]
  /\ (exists answer,
        ForcedSeparateFinder.find plain_platform (forced_separate_only ["legacy*"; "foo"])
          "legacy_utils" = Ret answer
        /\ answer = Some "legacy*")
  /\ (exists answer,
        ForcedSeparateFinder.find plain_platform (forced_separate_only ["legacy*"; "foo"])
          ".foo.bar" = Ret answer
        /\ answer = Some "foo")
  /\ (exists answer,
        ForcedSeparateFinder.find plain_platform (forced_separate_only ["legacy*"; "foo"])
          "Foo" = Ret answer
        /\ answer = None).
Proof.
  split; [reflexivity|].
  pose proof (fun module_name =>
                ForcedSeparateFinder_find_first_match plain_platform
                  (forced_separate_only ["legacy*"; "foo"]) ["legacy*"; "foo"]
                  module_name eq_refl) as H.
  repeat split.
  - destruct (H "legacy_utils") as (_ & (answer & Hfind & _) & _).
    exists answer. split; [exact Hfind|].
    vm_compute in Hfind. injection Hfind as <-. reflexivity.
  - destruct (H ".foo.bar") as (_ & (answer & Hfind & _) & _).
    exists answer. split; [exact Hfind|].
    vm_compute in Hfind. injection Hfind as <-. reflexivity.
  - destruct (H "Foo") as (_ & (answer & Hfind & _) & _).
    exists answer. split; [exact Hfind|].
    vm_compute in Hfind. injection Hfind as <-. reflexivity.
Defined.

(** ** [KnownPatternFinder]: the lookup *)

Section KnownPatternLookup.

Import KnownPatternFinder.

#[local] Arguments Ascii.eqb : simpl never.

Lemma split_cons sep s : exists first others, split sep s = first :: others.
Proof.
  destruct s as [|c s]; simpl; [eauto|].
  destruct (Ascii.eqb c sep); [eauto|].
  destruct (split sep s); eauto.
Qed.

Lemma concat_cons_cons sep x y l :
  String.concat sep (x :: y :: l) = x +:+ sep +:+ String.concat sep (y :: l).
Proof. reflexivity. Qed.

(** Joining what [split] gives back restores the string. *)
Lemma join_split sep s : Py.join (String sep EmptyString) (split sep s) = s.
Proof.
  unfold Py.join. induction s as [|c s IH]; [reflexivity|].
  simpl split. destruct (split_cons sep s) as (first & others & Hsplit).
  rewrite Hsplit in *.
  destruct (Ascii.eqb_spec c sep) as [->|Hne].
  - rewrite concat_cons_cons, IH. reflexivity.
  - destruct others as [|second others].
    + simpl in *. rewrite IH. reflexivity.
    + rewrite concat_cons_cons in *. rewrite append_cons, IH. reflexivity.
Qed.

Lemma rev_seq_lookup n i : i < n -> rev (seq 1 n) !! i = Some (n - i).
Proof.
  revert i. induction n as [|n IH]; intros i Hi; [lia|].
  rewrite seq_S, rev_app_distr. simpl.
  destruct i as [|i]; [reflexivity|].
  simpl. rewrite IH by lia. reflexivity.
Qed.

Lemma module_names_to_check_length module_name :
  length (module_names_to_check module_name) = length (split "." module_name).
Proof.
  unfold module_names_to_check.
  rewrite length_map, length_rev, length_seq. reflexivity.
Qed.

Lemma module_names_to_check_lookup module_name i :
  i < length (split "." module_name) ->
  module_names_to_check module_name !! i
  = Some (Py.join "." (take (length (split "." module_name) - i)
                            (split "." module_name))).
Proof.
  intros Hi. unfold module_names_to_check.
  change (map ?f ?l) with (f <$> l).
  rewrite list_lookup_fmap, rev_seq_lookup by exact Hi. reflexivity.
Qed.

Lemma first_match_spec known_patterns name :
  match first_match known_patterns name with
  | Some placement =>
      exists before pattern after,
        known_patterns = before ++ (pattern, placement) :: after
        /\ pattern_match pattern name = true
        /\ no_pattern_matches before name
  | None => no_pattern_matches known_patterns name
  end.
Proof.
  induction known_patterns as [|[pattern placement] rest IH]; simpl; [constructor|].
  destruct (pattern_match pattern name) eqn:Hmatch.
  - exists [], pattern, rest. repeat split; [exact Hmatch|constructor].
  - destruct (first_match rest name) as [found|].
    + destruct IH as (before & pattern' & after & -> & Hfound & Hbefore).
      exists ((pattern, placement) :: before), pattern', after.
      repeat split; [exact Hfound|]. constructor; assumption.
    + constructor; assumption.
Qed.

Lemma find_loop_spec known_patterns names :
  match find_loop known_patterns names with
  | Some placement =>
      exists names_before name names_after before pattern after,
        names = names_before ++ name :: names_after
        /\ Forall (no_pattern_matches known_patterns) names_before
        /\ known_patterns = before ++ (pattern, placement) :: after
        /\ pattern_match pattern name = true
        /\ no_pattern_matches before name
  | None => Forall (no_pattern_matches known_patterns) names
  end.
Proof.
  induction names as [|name rest IH]; simpl; [constructor|].
  pose proof (first_match_spec known_patterns name) as Hfirst.
  destruct (first_match known_patterns name) as [placement|].
  - destruct Hfirst as (before & pattern & after & Hsplit & Hmatch & Hbefore).
    exists [], name, rest, before, pattern, after.
    repeat split; try assumption. constructor.
  - destruct (find_loop known_patterns rest) as [placement|].
    + destruct IH as (names_before & name' & names_after & before & pattern & after
                      & -> & Hnames & Hsplit & Hmatch & Hbefore).
      exists (name :: names_before), name', names_after, before, pattern, after.
      repeat split; try assumption. constructor; assumption.
    + constructor; assumption.
Qed.

End KnownPatternLookup.

(** X25. [KnownPatternFinder.find] checks the dotted prefixes of the module
    name from the full name down to its first component, each one a
    component shorter than the one before, and for each prefix goes through
    the stored patterns in their order: it returns the placement of the
    first pattern that matches the first prefix some pattern matches, and
    [None] when no pattern matches any prefix. With the pattern [foo.bar]
    known as third party, [foo.bar.baz] is placed in [THIRDPARTY] and
    [foo.qux] is not placed. *)
Theorem KnownPatternFinder_find_longest_prefix
  (known_patterns : list (Pattern * string)) (module_name : string) :
  let parts := split "." module_name in
  let names := KnownPatternFinder.module_names_to_check module_name in
  (length names = length parts
   /\ (forall i, i < length parts ->
                 names !! i = Some (Py.join "." (take (length parts - i) parts)))
   /\ head names = Some module_name
   /\ last names = head parts)
  /\ match KnownPatternFinder.find known_patterns module_name with
     | Some placement =>
         exists names_before name names_after before pattern after,
           names = names_before ++ name :: names_after
           /\ Forall (no_pattern_matches known_patterns) names_before
           /\ known_patterns = before ++ (pattern, placement) :: after
           /\ pattern_match pattern name = true
           /\ no_pattern_matches before name
     | None => Forall (no_pattern_matches known_patterns) names
     end
  /\ exists third_party,
      KnownPatternFinder.init plain_platform (known_third_party ["foo.bar"])
        default_sections = Ret third_party
      /\ KnownPatternFinder.find third_party "foo.bar.baz" = Some "THIRDPARTY"
      /\ KnownPatternFinder.find third_party "foo.qux" = None.
Proof.
  intros parts names. split; [|split].
  - pose proof (module_names_to_check_length module_name) as Hlen.
    pose proof (module_names_to_check_lookup module_name) as Hlookup.
    destruct (split_cons "." module_name) as (first & others & Hparts).
    fold parts in Hlen, Hlookup, Hparts. fold names in Hlen, Hlookup.
    split; [exact Hlen|]. split; [exact Hlookup|]. split.
    + rewrite head_lookup, Hlookup by (rewrite Hparts; simpl; lia).
      rewrite Nat.sub_0_r, take_ge by lia.
      unfold parts. rewrite join_split. reflexivity.
    + rewrite last_lookup, Hlen, Hlookup by (rewrite Hparts; simpl; lia).
      rewrite Hparts. simpl length.
      replace (S (length others) - pred (S (length others))) with 1 by lia.
      reflexivity.
  - apply find_loop_spec.
  - eexists. split; [vm_compute; reflexivity|]. split; vm_compute; reflexivity.
Qed.

(** * Further properties *)

(** ** [FindersManager.find] past the first finder *)

Section FirstAnswer.

Import FindersManager.

Variable module_name : string.

Lemma find_loop_bound_first_answer finders :
  find_loop false finders module_name (Bound None)
  = ([], Ret (first_answer finders module_name)).
Proof.
  induction finders as [|finder rest IH]; [reflexivity|].
  cbn [find_loop first_answer]. unfold answer_of.
  destruct (finder_find finder module_name) as [[answer|]|e];
    [reflexivity|rewrite IH; reflexivity|rewrite IH; reflexivity].
Qed.

End FirstAnswer.

Lemma quiet_find_first_answer finder rest module_name answer :
  finder_find finder module_name = Ret answer ->
  FindersManager.find (quiet_manager (finder :: rest)) module_name
  = ([], Ret (first_answer (finder :: rest) module_name)).
Proof.
  intros Hfirst. unfold FindersManager.find, quiet_manager.
  cbn [FindersManager.self_verbose FindersManager.self_finders
       FindersManager.find_loop first_answer].
  unfold answer_of. rewrite Hfirst.
  destruct answer as [found|]; [reflexivity|].
  rewrite find_loop_bound_first_answer. reflexivity.
Qed.

(** X1. Once the lookup of the first finder has returned, a manager that is
    not verbose never raises: a later finder whose lookup raises counts as
    having no answer, [find] returns the first answer of the finders in
    their order, [None] when there is none, and prints nothing. *)
Theorem FindersManager_find_first_answer
  (finder : Finder) (rest : list Finder) (module_name : string)
  (answer : option string)
  (Hfirst : finder_find finder module_name = Ret answer) :
  FindersManager.find (quiet_manager (finder :: rest)) module_name
  = ([], Ret (first_answer (finder :: rest) module_name)).
Proof. exact (quiet_find_first_answer finder rest module_name answer Hfirst). Qed.

Lemma FindersManager_find_first_answer_witness :
  finder_find (local_finder default_sections) "os" = Ret None
  /\ FindersManager.find
       (quiet_manager [local_finder default_sections; default_finder empty_config;
                       default_finder (default_only "THIRDPARTY")])
       "os"
     = ([], Ret (Some "THIRDPARTY")).
Proof.
  split; [reflexivity|].
  rewrite (FindersManager_find_first_answer (local_finder default_sections) _ "os" None
             eq_refl).
  reflexivity.
Defined.

(** X2. In a verbose manager a lookup that raises is fatal wherever it
    happens, when the finder has no [__name__], as no instance of the
    module's finder classes has: if the finders before it have answered
    [None], [find] raises [AttributeError] from the handler, and the finders
    after it are not asked. *)
Theorem FindersManager_find_verbose_handler_raises
  (before : list Finder) (finder : Finder) (rest : list Finder)
  (module_name : string) (e : exn)
  (Hbefore : Forall (fun f => finder_find f module_name = Ret None) before)
  (Hraise : finder_find finder module_name = Raise e)
  (Hname : finder_name finder = None) :
  FindersManager.find
    {| FindersManager.self_verbose := true;
       FindersManager.self_finders := before ++ finder :: rest |}
    module_name
  = ([], Raise (AttributeError "object has no attribute '__name__'")).
Proof.
  unfold FindersManager.find.
  cbn [FindersManager.self_verbose FindersManager.self_finders].
  assert (Hhead : forall section,
             FindersManager.find_loop true (finder :: rest) module_name section
             = ([], Raise (AttributeError "object has no attribute '__name__'"))).
  { intros section. cbn [FindersManager.find_loop]. rewrite Hraise, Hname. reflexivity. }
  destruct before as [|first before]; [apply Hhead|].
  rewrite (find_loop_no_answers module_name true (first :: before)) by (auto; discriminate).
  apply Hhead.
Qed.

Lemma FindersManager_find_verbose_handler_raises_witness :
  Forall (fun f => finder_find f "os" = Ret None) [local_finder default_sections]
  /\ finder_find (default_finder empty_config) "os" = Raise (KeyError "default_section")
  /\ finder_name (default_finder empty_config) = None
  /\ FindersManager.find
       {| FindersManager.self_verbose := true;
          FindersManager.self_finders :=
            [local_finder default_sections] ++ default_finder empty_config
              :: [default_finder (default_only "THIRDPARTY")] |}
       "os"
     = ([], Raise (AttributeError "object has no attribute '__name__'")).
Proof.
  assert (Hbefore : Forall (fun f => finder_find f "os" = Ret None)
                           [local_finder default_sections])
    by (repeat constructor).
  split; [exact Hbefore|]. split; [reflexivity|]. split; [reflexivity|].
  exact (FindersManager_find_verbose_handler_raises
           [local_finder default_sections] (default_finder empty_config)
           [default_finder (default_only "THIRDPARTY")] "os"
           (KeyError "default_section") Hbefore eq_refl eq_refl).
Defined.

(** ** [FindersManager.__init__]: what is printed *)

Lemma failures_cons config sections finder rest :
  failures config sections (finder :: rest)
  = match class_call finder config sections with
    | Ret _ => failures config sections rest
    | Raise e => (class_name finder, e) :: failures config sections rest
    end.
Proof.
  unfold failures. simpl.
  destruct (class_call finder config sections); reflexivity.
Qed.

Lemma init_loop_printed config sections verbose classes :
  (FindersManager.init_loop verbose config sections classes).1
  = if verbose
    then map (fun failure : string * exn =>
                FindersManager.instantiation_message failure.1 failure.2)
             (failures config sections classes)
    else [].
Proof.
  induction classes as [|finder rest IH]; [destruct verbose; reflexivity|].
  cbn [FindersManager.init_loop]. rewrite failures_cons.
  destruct (FindersManager.init_loop verbose config sections rest) as [printed appended].
  cbn [fst] in IH. subst printed.
  destruct (class_call finder config sections) as [instance|e]; [reflexivity|].
  destruct verbose; reflexivity.
Qed.

(** X3. Given a list of classes, [__init__] prints one line for each class
    whose call raises, in the order of the classes, made of the name of the
    class and the text of the exception, when the configuration sets
    [verbose]; it prints nothing when [verbose] is false or absent. *)
Theorem FindersManager_init_printed
  (py : Platform) (config : Config) (sections : Sections)
  (classes : list FinderClass) :
  (FindersManager.init py config sections (Some classes)).1
  = match verbose config with
    | Some true =>
        map (fun failure : string * exn =>
               failure.1 +:+ " encountered an error (" +:+ str_exn failure.2
                         +:+ ") during instantiation and cannot be used")
            (failures config sections classes)
    | _ => []
    end.
Proof.
  unfold FindersManager.init.
  pose proof (init_loop_printed config sections (default false (verbose config)) classes)
    as Hprinted.
  destruct (FindersManager.init_loop _ config sections classes) as [printed appended].
  cbn [fst] in *. subst printed.
  destruct (verbose config) as [[|]|]; reflexivity.
Qed.

(** ** The default classes, passed to [__init__] *)

Section DefaultClasses.

Import FindersManager.

Variables (py : Platform) (config : Config) (sections : Sections).

Lemma init_some classes :
  init py config sections (Some classes)
  = ((init_loop (default false (verbose config)) config sections classes).1,
     Ret {| self_verbose := default false (verbose config);
            self_finders := instantiated config sections classes |}).
Proof.
  unfold init.
  pose proof (init_loop_appended config sections (default false (verbose config)) classes)
    as H.
  destruct (init_loop _ config sections classes) as [printed appended].
  simpl in *. subst appended. reflexivity.
Qed.

(** The first two default classes and the last one always return. *)
Lemma instantiated_default_classes :
  exists between,
    instantiated config sections (_default_finders_classes py)
    = forced_separate_finder py config :: local_finder sections
        :: between ++ [default_finder config].
Proof.
  unfold _default_finders_classes.
  rewrite (instantiated_returns config sections _ (forced_separate_finder py config))
    by reflexivity.
  rewrite (instantiated_returns config sections _ (local_finder sections)) by reflexivity.
  match goal with
  | |- context [instantiated config sections [?a; ?b; ?c; ?d; ?last]] =>
      change [a; b; c; d; last] with ([a; b; c; d] ++ [last])
  end.
  rewrite instantiated_app.
  rewrite (instantiated_returns config sections _ (default_finder config) []) by reflexivity.
  eexists. reflexivity.
Qed.

Lemma init_default_classes printed manager :
  init py config sections (Some (_default_finders_classes py)) = (printed, Ret manager) ->
  exists between,
    manager = {| self_verbose := default false (verbose config);
                 self_finders :=
                   forced_separate_finder py config :: local_finder sections
                     :: between ++ [default_finder config] |}.
Proof.
  rewrite init_some. destruct instantiated_default_classes as [between ->].
  intros [= _ <-]. exists between. reflexivity.
Qed.

End DefaultClasses.

Lemma first_answer_last finders finder module_name answer :
  answer_of finder module_name = Some answer ->
  exists found, first_answer (finders ++ [finder]) module_name = Some found.
Proof.
  intros Hlast. induction finders as [|f rest IH]; simpl.
  - rewrite Hlast. eauto.
  - destruct (answer_of f module_name); eauto.
Qed.

(** X4. Forced-separate patterns come first. For a manager built from the
    default classes, a module name that a [forced_separate] pattern matches
    is answered with the first such pattern, whatever the other finders
    would say and whether the manager is verbose or not. *)
Theorem FindersManager_forced_separate_first
  (py : Platform) (config : Config) (sections : Sections)
  (patterns : list string) (module_name found : string)
  (printed : list string) (manager : FindersManager.t)
  (Hinit : FindersManager.init py config sections
             (Some (FindersManager._default_finders_classes py))
           = (printed, Ret manager))
  (Hkey : forced_separate config = Some patterns)
  (Hfound : ForcedSeparateFinder.find_loop py patterns module_name = Some found) :
  FindersManager.find manager module_name = ([], Ret (Some found)).
Proof.
  apply init_default_classes in Hinit as [between ->].
  unfold FindersManager.find.
  cbn [FindersManager.self_verbose FindersManager.self_finders
       FindersManager.find_loop forced_separate_finder finder_find].
  unfold ForcedSeparateFinder.find. rewrite Hkey, Hfound. reflexivity.
Qed.

(** X5. Relative imports are local. For a manager built from the default
    classes, a module name that starts with a dot and that no
    [forced_separate] pattern matches is answered with the local-folder
    section. *)
Theorem FindersManager_relative_import_local
  (py : Platform) (config : Config) (sections : Sections)
  (patterns : list string) (module_name : string)
  (printed : list string) (manager : FindersManager.t)
  (Hinit : FindersManager.init py config sections
             (Some (FindersManager._default_finders_classes py))
           = (printed, Ret manager))
  (Hkey : forced_separate config = Some patterns)
  (Hnone : ForcedSeparateFinder.find_loop py patterns module_name = None)
  (Hdot : startswith module_name "." = true) :
  FindersManager.find manager module_name = ([], Ret (Some (LOCALFOLDER sections))).
Proof.
  apply init_default_classes in Hinit as [between ->].
  unfold FindersManager.find.
  cbn [FindersManager.self_verbose FindersManager.self_finders].
  rewrite find_loop_no_answer
    by (cbn [forced_separate_finder finder_find]; unfold ForcedSeparateFinder.find;
        rewrite Hkey, Hnone; reflexivity).
  cbn [FindersManager.find_loop local_finder finder_find].
  unfold LocalFinder.find. rewrite Hdot. reflexivity.
Qed.

(** X6. The key [forced_separate] is needed. For a manager built from the
    default classes with a configuration that lacks it, the first finder
    raises [KeyError] on every module name and [find] raises on every
    module name: [UnboundLocalError] when the manager is not verbose,
    [AttributeError] when it is. *)
Theorem FindersManager_find_without_forced_separate
  (py : Platform) (config : Config) (sections : Sections) (module_name : string)
  (printed : list string) (manager : FindersManager.t)
  (Hinit : FindersManager.init py config sections
             (Some (FindersManager._default_finders_classes py))
           = (printed, Ret manager))
  (Hkey : forced_separate config = None) :
  FindersManager.find manager module_name
  = ([], Raise (if default false (verbose config)
                then AttributeError "object has no attribute '__name__'"
                else UnboundLocalError
                       "local variable 'section' referenced before assignment")).
Proof.
  apply init_default_classes in Hinit as [between ->].
  unfold FindersManager.find.
  cbn [FindersManager.self_verbose FindersManager.self_finders
       FindersManager.find_loop forced_separate_finder finder_find finder_name].
  unfold ForcedSeparateFinder.find. rewrite Hkey.
  destruct (default false (verbose config)); reflexivity.
Qed.

(** X7. The default finder is the last resort. For a manager that is not
    verbose, built from the default classes with both [forced_separate] and
    [default_section] configured, [find] answers every module name with
    some section and never raises, whatever happens in the finders in
    between. *)
Theorem FindersManager_find_always_answers
  (py : Platform) (config : Config) (sections : Sections)
  (patterns : list string) (section module_name : string)
  (printed : list string) (manager : FindersManager.t)
  (Hinit : FindersManager.init py config sections
             (Some (FindersManager._default_finders_classes py))
           = (printed, Ret manager))
  (Hquiet : default false (verbose config) = false)
  (Hkey : forced_separate config = Some patterns)
  (Hdefault : default_section config = Some section) :
  exists answer, FindersManager.find manager module_name = ([], Ret (Some answer)).
Proof.
  apply init_default_classes in Hinit as [between ->]. rewrite Hquiet.
  fold (quiet_manager (forced_separate_finder py config :: local_finder sections
                         :: between ++ [default_finder config])).
  rewrite (quiet_find_first_answer _ _ module_name
             (ForcedSeparateFinder.find_loop py patterns module_name))
    by (cbn [forced_separate_finder finder_find]; unfold ForcedSeparateFinder.find;
        rewrite Hkey; reflexivity).
  rewrite !app_comm_cons.
  destruct (first_answer_last
              (forced_separate_finder py config :: local_finder sections :: between)
              (default_finder config) module_name section) as [found ->].
  - unfold answer_of, default_finder. cbn [finder_find].
    unfold DefaultFinder.find. rewrite Hdefault. reflexivity.
  - exists found. reflexivity.
Qed.

Lemma FindersManager_forced_separate_first_witness :
  exists printed manager,
    FindersManager.init plain_platform legacy_config default_sections
      (Some (FindersManager._default_finders_classes plain_platform))
    = (printed, Ret manager)
    /\ forced_separate legacy_config = Some ["legacy*"]
    /\ ForcedSeparateFinder.find_loop plain_platform ["legacy*"] ".legacy.api"
       = Some "legacy*"
    /\ FindersManager.find manager ".legacy.api" = ([], Ret (Some "legacy*")).
Proof.
  destruct (FindersManager.init plain_platform legacy_config default_sections
              (Some (FindersManager._default_finders_classes plain_platform)))
    as [printed [manager|e]] eqn:Hinit.
  - exists printed, manager.
    assert (Hfound : ForcedSeparateFinder.find_loop plain_platform ["legacy*"]
                       ".legacy.api" = Some "legacy*")
      by (vm_compute; reflexivity).
    split; [reflexivity|]. split; [reflexivity|]. split; [exact Hfound|].
    exact (FindersManager_forced_separate_first plain_platform legacy_config
             default_sections ["legacy*"] ".legacy.api" "legacy*" printed manager
             Hinit eq_refl Hfound).
  - rewrite init_some in Hinit. discriminate Hinit.
Defined.

Lemma FindersManager_relative_import_local_witness :
  exists printed manager,
    FindersManager.init plain_platform legacy_config default_sections
      (Some (FindersManager._default_finders_classes plain_platform))
    = (printed, Ret manager)
    /\ forced_separate legacy_config = Some ["legacy*"]
    /\ ForcedSeparateFinder.find_loop plain_platform ["legacy*"] ".models" = None
    /\ startswith ".models" "." = true
    /\ FindersManager.find manager ".models" = ([], Ret (Some "LOCALFOLDER")).
Proof.
  destruct (FindersManager.init plain_platform legacy_config default_sections
              (Some (FindersManager._default_finders_classes plain_platform)))
    as [printed [manager|e]] eqn:Hinit.
  - exists printed, manager.
    assert (Hnone : ForcedSeparateFinder.find_loop plain_platform ["legacy*"] ".models"
                    = None)
      by (vm_compute; reflexivity).
    split; [reflexivity|]. split; [reflexivity|]. split; [exact Hnone|].
    split; [reflexivity|].
    exact (FindersManager_relative_import_local plain_platform legacy_config
             default_sections ["legacy*"] ".models" printed manager
             Hinit eq_refl Hnone eq_refl).
  - rewrite init_some in Hinit. discriminate Hinit.
Defined.

Lemma FindersManager_find_without_forced_separate_witness :
  exists printed manager,
    FindersManager.init plain_platform (default_only "THIRDPARTY") default_sections
      (Some (FindersManager._default_finders_classes plain_platform))
    = (printed, Ret manager)
    /\ forced_separate (default_only "THIRDPARTY") = None
    /\ FindersManager.find manager "os"
       = ([], Raise (UnboundLocalError
                       "local variable 'section' referenced before assignment")).
Proof.
  destruct (FindersManager.init plain_platform (default_only "THIRDPARTY")
              default_sections
              (Some (FindersManager._default_finders_classes plain_platform)))
    as [printed [manager|e]] eqn:Hinit.
  - exists printed, manager.
    split; [reflexivity|]. split; [reflexivity|].
    exact (FindersManager_find_without_forced_separate plain_platform
             (default_only "THIRDPARTY") default_sections "os" printed manager
             Hinit eq_refl).
  - rewrite init_some in Hinit. discriminate Hinit.
Defined.

Lemma FindersManager_find_always_answers_witness :
  exists printed manager answer,
    FindersManager.init plain_platform legacy_config default_sections
      (Some (FindersManager._default_finders_classes plain_platform))
    = (printed, Ret manager)
    /\ default false (verbose legacy_config) = false
    /\ forced_separate legacy_config = Some ["legacy*"]
    /\ default_section legacy_config = Some "THIRDPARTY"
    /\ FindersManager.find manager "numpy.linalg" = ([], Ret (Some answer)).
Proof.
  destruct (FindersManager.init plain_platform legacy_config default_sections
              (Some (FindersManager._default_finders_classes plain_platform)))
    as [printed [manager|e]] eqn:Hinit.
  - destruct (FindersManager_find_always_answers plain_platform legacy_config
                default_sections ["legacy*"] "THIRDPARTY" "numpy.linalg" printed manager
                Hinit eq_refl eq_refl eq_refl) as [answer Hanswer].
    exists printed, manager, answer.
    split; [reflexivity|]. split; [reflexivity|]. split; [reflexivity|].
    split; [reflexivity|exact Hanswer].
  - rewrite init_some in Hinit. discriminate Hinit.
Defined.

(** ** [KnownPatternFinder.__init__] *)

Section ResultMonad.

Lemma bind_Ret {A B} (a : A) (f : A -> result B) : (Ret a ≫= f) = f a.
Proof. reflexivity. Qed.

Lemma bind_Raise {A B} (e : exn) (f : A -> result B) : (Raise e ≫= f) = Raise e.
Proof. reflexivity. Qed.

Lemma mapM_cons {A B} (f : A -> result B) x l :
  mapM f (x :: l) = (y ← f x; k ← mapM f l; Ret (y :: k)).
Proof. reflexivity. Qed.

Lemma mapM_result_app {A B} (f : A -> result B) l1 l2 :
  mapM f (l1 ++ l2) = (a ← mapM f l1; b ← mapM f l2; Ret (a ++ b)).
Proof.
  induction l1 as [|x l1 IH].
  - simpl app. change (mapM f []) with (Ret (@nil B)). rewrite bind_Ret.
    destruct (mapM f l2); reflexivity.
  - rewrite <- app_comm_cons, !mapM_cons, IH.
    destruct (f x); [|reflexivity]. rewrite !bind_Ret.
    destruct (mapM f l1); [|reflexivity]. rewrite !bind_Ret.
    destruct (mapM f l2); reflexivity.
Qed.

Lemma mapM_result_map {A B C} (g : A -> B) (f : B -> result C) l :
  mapM f (map g l) = mapM (fun x => f (g x)) l.
Proof.
  induction l as [|x l IH]; [reflexivity|].
  cbn [map]. rewrite !mapM_cons, IH. reflexivity.
Qed.

Lemma mapM_result_rounds {A B C} (g : A -> result (list C)) (f : B -> result C)
  (h : A -> list B) l :
  (forall x, In x l -> g x = mapM f (h x)) ->
  (rounds ← mapM g l; Ret (concat rounds)) = mapM f (flat_map h l).
Proof.
  induction l as [|x l IH]; intros Hg; [reflexivity|].
  cbn [flat_map]. rewrite mapM_result_app, mapM_cons, <- IH, Hg
    by (try (intros; apply Hg); simpl; auto).
  destruct (mapM f (h x)); [|reflexivity]. rewrite !bind_Ret.
  destruct (mapM g l); reflexivity.
Qed.

End ResultMonad.

Section KnownPatternInit.

Import KnownPatternFinder.

Variables (py : Platform) (config : Config).

Lemma _parse_known_pattern_plain patterns :
  Forall (fun p => endswith p "/" = false) patterns ->
  mapM (_parse_known_pattern py) patterns = Ret (map (fun p => [p]) patterns).
Proof.
  induction 1 as [|p rest Hp _ IH]; [reflexivity|].
  rewrite mapM_cons, IH. unfold _parse_known_pattern.
  change posixpath.sep_str with "/". rewrite Hp. reflexivity.
Qed.

Lemma concat_singletons {A} (l : list A) : concat (map (fun x => [x]) l) = l.
Proof. induction l as [|x l IH]; simpl; [|rewrite IH]; reflexivity. Qed.

Lemma known_patterns_of_plain placement :
  Forall (fun p => endswith p "/" = false) (configured config placement) ->
  known_patterns_of py config placement
  = mapM (compile_registration py)
         (map (fun p => (p, placement)) (configured config placement)).
Proof.
  intros Hplain. unfold known_patterns_of.
  fold (config_key placement). fold (configured config placement).
  rewrite (_parse_known_pattern_plain _ Hplain), bind_Ret, concat_singletons.
  rewrite mapM_result_map. reflexivity.
Qed.

End KnownPatternInit.

(** X8. When no configured known pattern ends in a slash, so that none is
    expanded from a directory, [KnownPatternFinder.__init__] does not look
    at the filesystem: it compiles the configured patterns one after the
    other, the placements taken from the last of the registry to the first
    and the patterns of a placement in the order of the configuration, and
    it raises exactly when a compilation does. The stored list pairs each
    compiled pattern with its placement, in that order. *)
Theorem KnownPatternFinder_init_order
  (py : Platform) (config : Config) (sections : Sections)
  (Hplain : forall placement,
      In placement (placements sections) ->
      Forall (fun p => endswith p "/" = false) (configured config placement)) :
  KnownPatternFinder.init py config sections
  = mapM (compile_registration py) (registrations config sections).
Proof.
  unfold KnownPatternFinder.init, registrations.
  apply mapM_result_rounds. intros placement Hin.
  apply known_patterns_of_plain, Hplain, in_rev, Hin.
Qed.

Lemma KnownPatternFinder_init_order_witness :
  (forall placement,
      In placement (placements default_sections) ->
      Forall (fun p => endswith p "/" = false)
             (configured two_sections_config placement))
  /\ registrations two_sections_config default_sections
     = [("myapp", "FIRSTPARTY"); ("numpy", "THIRDPARTY"); ("django*", "THIRDPARTY")]
  /\ KnownPatternFinder.init plain_platform two_sections_config default_sections
     = mapM (compile_registration plain_platform)
            [("myapp", "FIRSTPARTY"); ("numpy", "THIRDPARTY"); ("django*", "THIRDPARTY")].
Proof.
  assert (Hplain : forall placement,
             In placement (placements default_sections) ->
             Forall (fun p => endswith p "/" = false)
                    (configured two_sections_config placement)).
  { intros placement Hin. simpl in Hin.
    destruct Hin as [<-|[<-|[<-|[<-|[<-|[]]]]]]; vm_compute; repeat constructor. }
  assert (Hregistrations :
            registrations two_sections_config default_sections
            = [("myapp", "FIRSTPARTY"); ("numpy", "THIRDPARTY"); ("django*", "THIRDPARTY")])
    by (vm_compute; reflexivity).
  split; [exact Hplain|]. split; [exact Hregistrations|].
  rewrite <- Hregistrations.
  exact (KnownPatternFinder_init_order plain_platform two_sections_config
           default_sections Hplain).
Defined.

Lemma KNOWN_SECTION_MAPPING_other placement :
  placement <> "STDLIB" -> placement <> "FUTURE" ->
  placement <> "FIRSTPARTY" -> placement <> "THIRDPARTY" ->
  KNOWN_SECTION_MAPPING !! placement = None.
Proof.
  intros H1 H2 H3 H4. unfold KNOWN_SECTION_MAPPING.
  rewrite !lookup_insert_ne by congruence. apply lookup_empty.
Qed.

(** X9. The key [KnownPatternFinder.__init__] reads for a placement is
    [known_] followed by the lowercased placement, except for the four
    placements of the alias table, which read [known_standard_library],
    [known_future_library], [known_first_party] and [known_third_party];
    a placement whose key is absent from the configuration contributes no
    pattern and does not make [__init__] raise. *)
Theorem KnownPatternFinder_config_key
  (py : Platform) (config : Config) (placement : string) :
  config_key placement
  = "known_" +:+
      (if decide (placement = "STDLIB") then "standard_library"
       else if decide (placement = "FUTURE") then "future_library"
       else if decide (placement = "FIRSTPARTY") then "first_party"
       else if decide (placement = "THIRDPARTY") then "third_party"
       else lower placement)
  /\ (known config !! config_key placement = None ->
      KnownPatternFinder.known_patterns_of py config placement = Ret []).
Proof.
  split.
  - unfold config_key.
    destruct (decide (placement = "STDLIB")) as [->|H1]; [reflexivity|].
    destruct (decide (placement = "FUTURE")) as [->|H2]; [reflexivity|].
    destruct (decide (placement = "FIRSTPARTY")) as [->|H3]; [reflexivity|].
    destruct (decide (placement = "THIRDPARTY")) as [->|H4]; [reflexivity|].
    rewrite KNOWN_SECTION_MAPPING_other by assumption. reflexivity.
  - intros Habsent. unfold KnownPatternFinder.known_patterns_of.
    fold (config_key placement). rewrite Habsent. reflexivity.
Qed.

(** ** [PathFinder] *)

Section PathFinderInit.

Import PathFinder.

Lemma existsb_eqb_In x (l : list string) : existsb (String.eqb x) l = true <-> In x l.
Proof.
  rewrite existsb_exists. split.
  - intros (y & Hin & Heq). apply String.eqb_eq in Heq. subst. exact Hin.
  - intros Hin. exists x. split; [exact Hin|apply String.eqb_refl].
Qed.

Lemma append_new_extends paths path :
  exists added, append_new paths path = paths ++ added.
Proof.
  unfold append_new. destruct (existsb (String.eqb path) paths).
  - exists []. rewrite app_nil_r. reflexivity.
  - exists [path]. reflexivity.
Qed.

Lemma append_new_In paths path : In path (append_new paths path).
Proof.
  unfold append_new. destruct (existsb (String.eqb path) paths) eqn:H.
  - apply existsb_eqb_In. exact H.
  - apply in_or_app. right. left. reflexivity.
Qed.

Lemma fold_append_new_extends new paths :
  exists added, fold_left append_new new paths = paths ++ added.
Proof.
  revert paths. induction new as [|path new IH]; intros paths; simpl.
  - exists []. rewrite app_nil_r. reflexivity.
  - destruct (append_new_extends paths path) as [a ->].
    destruct (IH (paths ++ a)) as [b ->].
    exists (a ++ b). rewrite app_assoc. reflexivity.
Qed.

End PathFinderInit.

(** X10. [PathFinder.__init__] raises [IndexError] when [sys.path] is empty
    and, the calls to the platform returning, at no other time. Otherwise the candidate paths are the working
    directory in place of the first entry of [sys.path], then the other
    entries of [sys.path] in their order, then what the virtual environment
    and the standard library add; the standard library directory is always
    among them, and the extension suffix is never empty. *)
Theorem PathFinder_init_paths (py : Platform) (config : Config) :
  match PathFinder.init py config with
  | Raise e =>
      sys_path py = [] /\ e = IndexError "list assignment index out of range"
  | Ret self =>
      exists first others added,
        sys_path py = first :: others
        /\ PathFinder.paths self = os_getcwd py :: others ++ added
        /\ In (sysconfig_stdlib py) (PathFinder.paths self)
        /\ PathFinder.stdlib_lib_prefix self = sysconfig_stdlib py
        /\ PathFinder.ext_suffix self <> EmptyString
  end.
Proof.
  unfold PathFinder.init. destruct (sys_path py) as [|first others]; [split; reflexivity|].
  match goal with
  | |- context [let '(venv_src, paths) := ?choice in _] =>
      assert (Hchoice : exists added, choice.2 = (os_getcwd py :: others) ++ added);
      [|destruct choice as [venv_src paths]]
  end.
  { destruct (match virtual_env config with
              | Some v => if truthy v then Some v else os_environ_VIRTUAL_ENV py
              | None => os_environ_VIRTUAL_ENV py
              end) as [v|]; [|exists []; rewrite app_nil_r; reflexivity].
    destruct (truthy v); [|exists []; rewrite app_nil_r; reflexivity].
    cbn [snd].
    destruct (fold_append_new_extends
                (glob py (v +:+ "/lib/python*/site-packages")) (os_getcwd py :: others))
      as [a ->].
    destruct (fold_append_new_extends
                (glob py (v +:+ "/lib/python*/*/site-packages"))
                ((os_getcwd py :: others) ++ a)) as [b ->].
    eexists. rewrite <- !app_assoc. reflexivity. }
  destruct Hchoice as [added Hpaths]. cbn [snd] in Hpaths. subst paths.
  destruct (append_new_extends ((os_getcwd py :: others) ++ added) (sysconfig_stdlib py))
    as [last Hlast].
  exists first, others, (added ++ last).
  cbn [PathFinder.paths PathFinder.stdlib_lib_prefix PathFinder.ext_suffix].
  split; [reflexivity|]. split; [|split; [|split]].
  - rewrite Hlast, <- app_assoc. reflexivity.
  - apply append_new_In.
  - reflexivity.
  - destruct (sysconfig_EXT_SUFFIX py) as [suffix|]; [|discriminate].
    unfold truthy. destruct (String.eqb_spec suffix EmptyString); simpl;
      [discriminate|assumption].
Qed.

Section PathFinderFind.

Import PathFinder.

#[local] Arguments Ascii.eqb : simpl never.

Lemma hd_split_cons sep c s :
  List.hd EmptyString (split sep (String c s))
  = if Ascii.eqb c sep then EmptyString
    else String c (List.hd EmptyString (split sep s)).
Proof.
  simpl split. destruct (Ascii.eqb c sep); [reflexivity|].
  destruct (split_cons sep s) as (first & others & ->). reflexivity.
Qed.

(** The first component of a name has a single component, itself. *)
Lemma hd_split_idem sep s :
  List.hd EmptyString (split sep (List.hd EmptyString (split sep s)))
  = List.hd EmptyString (split sep s).
Proof.
  induction s as [|c s IH]; [reflexivity|].
  rewrite hd_split_cons. destruct (Ascii.eqb c sep) eqn:Hc; [reflexivity|].
  rewrite hd_split_cons, Hc, IH. reflexivity.
Qed.

Lemma found_under_top_level py self prefix module_name :
  found_under py self prefix (List.hd EmptyString (split "." module_name))
  = found_under py self prefix module_name.
Proof. unfold found_under. rewrite hd_split_idem. reflexivity. Qed.

Lemma find_loop_cons py config sections self prefix rest module_name :
  find_loop py config sections self (prefix :: rest) module_name
  = if found_under py self prefix module_name then
      if contains "site-packages" prefix then Ret (Some (THIRDPARTY sections))
      else if contains "dist-packages" prefix then Ret (Some (THIRDPARTY sections))
      else if match self_virtual_env self with
              | Some v => truthy v
              | None => false
              end && contains (virtual_env_src self) prefix
      then Ret (Some (THIRDPARTY sections))
      else if startswith prefix (stdlib_lib_prefix self)
      then Ret (Some (STDLIB sections))
      else match default_section config with
           | Some section => Ret (Some section)
           | None => Raise (KeyError "default_section")
           end
    else find_loop py config sections self rest module_name.
Proof. reflexivity. Qed.

Lemma find_loop_top_level py config sections self prefixes module_name :
  find_loop py config sections self prefixes module_name
  = find_loop py config sections self prefixes
      (List.hd EmptyString (split "." module_name)).
Proof.
  induction prefixes as [|prefix rest IH]; [reflexivity|].
  rewrite !find_loop_cons, found_under_top_level, IH. reflexivity.
Qed.

Lemma find_loop_not_found py config sections self prefixes module_name :
  Forall (fun prefix => found_under py self prefix module_name = false) prefixes ->
  find_loop py config sections self prefixes module_name = Ret None.
Proof.
  induction 1 as [|prefix rest Hprefix _ IH]; [reflexivity|].
  rewrite find_loop_cons, Hprefix. exact IH.
Qed.

Lemma find_loop_None py config sections self prefixes module_name :
  find_loop py config sections self prefixes module_name = Ret None ->
  Forall (fun prefix => found_under py self prefix module_name = false) prefixes.
Proof.
  induction prefixes as [|prefix rest IH]; [constructor|].
  rewrite find_loop_cons.
  destruct (found_under py self prefix module_name) eqn:Hfound.
  - repeat match goal with
           | |- context [if ?c then _ else _] => destruct c
           | |- context [match default_section config with _ => _ end] =>
               destruct (default_section config)
           end; discriminate.
  - intros Hrest. constructor; [exact Hfound|apply IH; exact Hrest].
Qed.

End PathFinderFind.

(** X11. [PathFinder.find] looks only at the top-level package: a dotted
    module name gets the answer of its first component. *)
Theorem PathFinder_find_top_level
  (py : Platform) (config : Config) (sections : Sections) (self : PathFinder.t)
  (module_name : string) :
  PathFinder.find py config sections self module_name
  = PathFinder.find py config sections self
      (List.hd EmptyString (split "." module_name)).
Proof. unfold PathFinder.find. apply find_loop_top_level. Qed.

(** X12. [PathFinder.find] has no answer exactly when the top-level
    component of the module name is found under none of the candidate
    paths, neither as a module nor as a package; once it is found the
    lookup answers with a section or raises. *)
Theorem PathFinder_find_no_answer
  (py : Platform) (config : Config) (sections : Sections) (self : PathFinder.t)
  (module_name : string) :
  PathFinder.find py config sections self module_name = Ret None
  <-> Forall (fun prefix => found_under py self prefix module_name = false)
             (PathFinder.paths self).
Proof.
  unfold PathFinder.find. split;
    [apply find_loop_None|apply find_loop_not_found].
Qed.

(** X13. The first path under which [PathFinder.find] finds the module
    decides: when that path contains [site-packages] or [dist-packages] the
    module is third party, also when the path lies inside the standard
    library directory. *)
Theorem PathFinder_find_site_packages
  (py : Platform) (config : Config) (sections : Sections) (self : PathFinder.t)
  (module_name : string) (before : list string) (prefix : string) (after : list string)
  (Hpaths : PathFinder.paths self = before ++ prefix :: after)
  (Hbefore : Forall (fun p => found_under py self p module_name = false) before)
  (Hfound : found_under py self prefix module_name = true)
  (Hsite : contains "site-packages" prefix || contains "dist-packages" prefix = true) :
  PathFinder.find py config sections self module_name
  = Ret (Some (THIRDPARTY sections)).
Proof.
  unfold PathFinder.find. rewrite Hpaths. clear Hpaths.
  induction Hbefore as [|p before Hp _ IH]; simpl app.
  - rewrite find_loop_cons, Hfound.
    destruct (contains "site-packages" prefix); [reflexivity|].
    simpl in Hsite. rewrite Hsite. reflexivity.
  - rewrite find_loop_cons, Hp. exact IH.
Qed.

Lemma PathFinder_find_site_packages_witness :
  PathFinder.init installed_platform empty_config = Ret installed_self
  /\ PathFinder.paths installed_self
     = ["/home/u/proj"] ++ "/usr/lib/python3.7/site-packages" :: ["/usr/lib/python3.7"]
  /\ Forall (fun p => found_under installed_platform installed_self p "numpy.linalg"
                      = false) ["/home/u/proj"]
  /\ found_under installed_platform installed_self "/usr/lib/python3.7/site-packages"
       "numpy.linalg" = true
  /\ startswith "/usr/lib/python3.7/site-packages"
       (PathFinder.stdlib_lib_prefix installed_self) = true
  /\ PathFinder.find installed_platform empty_config default_sections installed_self
       "numpy.linalg"
     = Ret (Some "THIRDPARTY").
Proof.
  assert (Hbefore : Forall (fun p => found_under installed_platform installed_self p
                                       "numpy.linalg" = false) ["/home/u/proj"])
    by (constructor; [vm_compute; reflexivity|constructor]).
  assert (Hfound : found_under installed_platform installed_self
                     "/usr/lib/python3.7/site-packages" "numpy.linalg" = true)
    by (vm_compute; reflexivity).
  split; [vm_compute; reflexivity|]. split; [reflexivity|].
  split; [exact Hbefore|]. split; [exact Hfound|]. split; [vm_compute; reflexivity|].
  exact (PathFinder_find_site_packages installed_platform empty_config default_sections
           installed_self "numpy.linalg" ["/home/u/proj"]
           "/usr/lib/python3.7/site-packages" ["/usr/lib/python3.7"]
           eq_refl Hbefore Hfound eq_refl).
Defined.

(** ** [ReqsBaseFinder]: loading *)

Section LoadMapping.

Import ReqsBaseFinder.

Lemma fold_mapping_lookup lines (mappings : gmap string string) pypi_name :
  fold_left
    (fun (mappings : gmap string string) line =>
       let '(import_name, _, name) := partition ":" (strip line) in
       <[name := import_name]> mappings)
    lines mappings !! pypi_name
  = match last_import lines pypi_name with
    | Some import_name => Some import_name
    | None => mappings !! pypi_name
    end.
Proof.
  revert mappings. induction lines as [|line rest IH]; intros mappings; [reflexivity|].
  cbn [fold_left]. rewrite IH. unfold last_import. cbn [omap list_omap].
  unfold mapping_entry at 3 4.
  destruct (partition ":" (strip line)) as [[import_name found] name]. cbn [fst snd].
  destruct (String.eqb_spec name pypi_name) as [->|Hne].
  - rewrite last_cons.
    destruct (last (omap _ rest)); [reflexivity|apply lookup_insert_eq].
  - destruct (last (omap _ rest)); [reflexivity|].
    apply lookup_insert_ne. exact Hne.
Qed.

End LoadMapping.

(** X14. [_load_mapping] returns [None] when [pipreqs] is not installed and
    raises what reading the mapping file raises. Otherwise it returns a
    dictionary in which every PyPI name of the file, the part of a stripped
    line after its first colon, maps to the import name before the colon of
    the last line that names it, and no other key is present. *)
Theorem ReqsBaseFinder_load_mapping (py : Platform) :
  match pipreqs_mapping py with
  | None => ReqsBaseFinder._load_mapping py = Ret None
  | Some (Raise e) => ReqsBaseFinder._load_mapping py = Raise e
  | Some (Ret lines) =>
      exists mappings : gmap string string,
        ReqsBaseFinder._load_mapping py = Ret (Some mappings)
        /\ forall pypi_name, mappings !! pypi_name = last_import lines pypi_name
  end.
Proof.
  unfold ReqsBaseFinder._load_mapping.
  destruct (pipreqs_mapping py) as [[lines|e]|]; [|reflexivity|reflexivity].
  eexists. split; [reflexivity|].
  intros pypi_name. rewrite fold_mapping_lookup, lookup_empty.
  destruct (last_import lines pypi_name); reflexivity.
Qed.

(** ** [ReqsBaseFinder]: names *)

Section Names.

Import ReqsBaseFinder.

#[local] Arguments Ascii.eqb : simpl never.
#[local] Arguments nat_of_ascii : simpl never.
#[local] Arguments ascii_of_nat : simpl never.

Lemma is_upper_range c :
  is_upper c = true <-> 65 <= nat_of_ascii c <= 90.
Proof.
  unfold is_upper. rewrite andb_true_iff, !Nat.leb_le. reflexivity.
Qed.

Lemma lower_char_not_upper c : is_upper (lower_char c) = false.
Proof.
  unfold lower_char. destruct (is_upper c) eqn:Hc; [|exact Hc].
  apply is_upper_range in Hc.
  apply not_true_is_false. rewrite is_upper_range.
  rewrite nat_ascii_embedding by lia. lia.
Qed.

Lemma lower_char_fixed c : is_upper c = false -> lower_char c = c.
Proof. unfold lower_char. intros ->. reflexivity. Qed.

Lemma lower_char_eq_iff c (d : ascii) :
  is_upper d = false -> nat_of_ascii d < 97 \/ 122 < nat_of_ascii d ->
  lower_char c = d <-> c = d.
Proof.
  intros Hd Hrange. unfold lower_char. destruct (is_upper c) eqn:Hc.
  - split.
    + apply is_upper_range in Hc.
      intros <-. rewrite nat_ascii_embedding in Hrange by lia. lia.
    + intros ->. congruence.
  - reflexivity.
Qed.

Lemma chars_lower_not_upper s : Forall (fun c => is_upper c = false) (chars (lower s)).
Proof.
  induction s as [|c s IH]; simpl; constructor; [apply lower_char_not_upper|exact IH].
Qed.

Lemma lower_fixed s : Forall (fun c => is_upper c = false) (chars s) -> lower s = s.
Proof.
  induction s as [|c s IH]; [reflexivity|].
  intros H. inversion H as [|? ? Hc Hs]; subst.
  simpl. rewrite (lower_char_fixed c Hc), (IH Hs). reflexivity.
Qed.

Lemma chars_append a b : chars (a +:+ b) = chars a ++ chars b.
Proof.
  induction a as [|c a IH]; [reflexivity|].
  rewrite append_cons. unfold chars in *. simpl. rewrite IH. reflexivity.
Qed.

Lemma replace_chars (P : ascii -> Prop) old new s :
  Forall P (chars new) -> Forall P (chars s) -> Forall P (chars (replace old new s)).
Proof.
  intros Hnew. induction s as [|c s IH]; intros Hs; [constructor|].
  inversion Hs as [|? ? Hc Hrest]; subst. simpl.
  destruct (Ascii.eqb c old).
  - rewrite chars_append.
    apply Forall_app. split; [exact Hnew|apply IH; exact Hrest].
  - constructor; [exact Hc|apply IH; exact Hrest].
Qed.

Lemma replace_removes old new s :
  Forall (fun c => c <> old) (chars new) ->
  Forall (fun c => c <> old) (chars (replace old new s)).
Proof.
  intros Hnew. induction s as [|c s IH]; [constructor|]. simpl.
  destruct (Ascii.eqb_spec c old) as [->|Hne].
  - rewrite chars_append.
    apply Forall_app. split; [exact Hnew|exact IH].
  - constructor; [exact Hne|exact IH].
Qed.

Lemma replace_fixed old new s :
  Forall (fun c => c <> old) (chars s) -> replace old new s = s.
Proof.
  induction s as [|c s IH]; [reflexivity|].
  intros H. inversion H as [|? ? Hc Hs]; subst. simpl.
  apply Ascii.eqb_neq in Hc. rewrite Hc, (IH Hs). reflexivity.
Qed.

Lemma _normalize_name_chars mapping name :
  Forall (fun c => c <> "-"%char /\ is_upper c = false)
         (chars (_normalize_name mapping name)).
Proof.
  rewrite _normalize_name_lookup.
  set (looked_up := match mapping with
                    | Some m => default name (m !! name)
                    | None => name
                    end).
  apply Forall_and. split.
  - apply replace_removes. repeat constructor. discriminate.
  - apply replace_chars; [repeat constructor|apply chars_lower_not_upper].
Qed.

Lemma partition_no_sep sep s :
  Forall (fun c => c <> sep) (chars s) ->
  partition sep s = (s, EmptyString, EmptyString).
Proof.
  induction s as [|c s IH]; [reflexivity|].
  intros H. inversion H as [|? ? Hc Hs]; subst. simpl.
  apply Ascii.eqb_neq in Hc. rewrite Hc, (IH Hs). reflexivity.
Qed.

Lemma partition_first_no_sep sep s :
  Forall (fun c => c <> sep) (chars (partition sep s).1.1).
Proof.
  induction s as [|c s IH]; [constructor|]. simpl.
  destruct (Ascii.eqb_spec c sep) as [->|Hne]; [constructor|].
  destruct (partition sep s) as [[before found] after]. simpl in *.
  constructor; assumption.
Qed.

Lemma lower_no_dot s :
  Forall (fun c => c <> "."%char) (chars s) ->
  Forall (fun c => c <> "."%char) (chars (lower s)).
Proof.
  induction s as [|c s IH]; [constructor|].
  intros H. inversion H as [|? ? Hc Hs]; subst. simpl.
  constructor; [|apply IH; exact Hs].
  intros Heq. apply Hc.
  apply (lower_char_eq_iff c "."); [reflexivity|left; vm_compute; lia|exact Heq].
Qed.

Lemma first_component_idem module_name :
  partition "." (first_component module_name)
  = (first_component module_name, EmptyString, EmptyString)
  /\ lower (first_component module_name) = first_component module_name.
Proof.
  unfold first_component. split.
  - apply partition_no_sep, lower_no_dot, partition_first_no_sep.
  - apply lower_fixed, chars_lower_not_upper.
Qed.

End Names.

(** X15. A normalized name never has a hyphen or an upper-case ASCII letter
    in it, whatever the mapping holds, and normalizing it again without a
    mapping changes nothing. *)
Theorem ReqsBaseFinder_normalize_name_shape
  (mapping : option (gmap string string)) (name : string) :
  Forall (fun c => c <> "-"%char /\ is_upper c = false)
         (chars (ReqsBaseFinder._normalize_name mapping name))
  /\ ReqsBaseFinder._normalize_name None (ReqsBaseFinder._normalize_name mapping name)
     = ReqsBaseFinder._normalize_name mapping name.
Proof.
  pose proof (_normalize_name_chars mapping name) as Hchars.
  split; [exact Hchars|].
  apply Forall_and in Hchars as [Hhyphen Hupper].
  rewrite (_normalize_name_lookup None).
  rewrite (lower_fixed _ Hupper), (replace_fixed _ _ _ Hhyphen). reflexivity.
Qed.

(** X16. The lookup of a manifest finder sees only the first dotted
    component of the module name, and sees it in lower case: a module name
    gets the answer of its lowercased first component, so that submodules
    and names that differ in case are answered alike. *)
Theorem ReqsBaseFinder_find_first_component
  (cls : ReqsBaseFinder.subclass) (sections : Sections)
  (self : option ReqsBaseFinder.t) (module_name : string) :
  ReqsBaseFinder.find cls sections self module_name
  = ReqsBaseFinder.find cls sections self (first_component module_name).
Proof.
  destruct (first_component_idem module_name) as [Hpartition Hlower].
  unfold ReqsBaseFinder.find. rewrite Hpartition, Hlower.
  unfold first_component.
  destruct (partition "." module_name) as [[before found] after]. reflexivity.
Qed.

(** ** [ReqsBaseFinder]: the manifests *)

Section Manifests.

Import ReqsBaseFinder.

Lemma gen_for_silent {A B} (xs : list A) (body : A -> gen B) :
  Forall (fun x => body x = ([], None)) xs -> gen_for xs body = ([], None).
Proof.
  induction 1 as [|x rest Hx _ IH]; [reflexivity|].
  simpl. rewrite Hx, IH. reflexivity.
Qed.

Lemma gen_for_raises {A B} (before : list A) (x : A) (after : list A)
  (body : A -> gen B) (e : exn) :
  Forall (fun b => body b = ([], None)) before ->
  body x = ([], Some e) ->
  gen_for (before ++ x :: after) body = ([], Some e).
Proof.
  induction 1 as [|b rest Hb _ IH]; intros Hx; simpl.
  - rewrite Hx. reflexivity.
  - rewrite Hb, (IH Hx). reflexivity.
Qed.

Lemma gen_for_quiet {A B} (xs : list A) (body : A -> gen B) :
  Forall (fun x => (body x).2 = None) xs ->
  gen_for xs body = (flat_map (fun x => (body x).1) xs, None).
Proof.
  induction 1 as [|x rest Hx _ IH]; [reflexivity|].
  simpl. destruct (body x) as [ys err]. simpl in Hx. subst err.
  rewrite IH. reflexivity.
Qed.

Lemma gen_for_In {A B} (xs : list A) (body : A -> gen B) (y : B) :
  In y (gen_for xs body).1 -> exists x, In x xs /\ In y (body x).1.
Proof.
  induction xs as [|x rest IH]; simpl; [contradiction|].
  destruct (body x) as [ys [e|]] eqn:Hbody.
  - simpl. intros Hin. exists x. rewrite Hbody. auto.
  - destruct (gen_for rest body) as [zs err]. simpl in *.
    intros Hin. apply in_app_or in Hin as [Hin|Hin].
    + exists x. rewrite Hbody. auto.
    + destruct (IH Hin) as (x' & Hx' & Hy). exists x'. auto.
Qed.

Lemma gen_bind_In {A B} (g : gen A) (body : A -> gen B) (y : B) :
  In y (gen_bind g body).1 -> exists x, In x g.1 /\ In y (body x).1.
Proof.
  unfold gen_bind. intros Hin. apply gen_for_In.
  destruct (gen_for g.1 body) as [ys [e|]]; exact Hin.
Qed.

End Manifests.

(** X17. One ancestor that cannot be scanned disables a manifest finder.
    When the class is enabled and the mapping loads, and the scan of some
    directory of the walk raises before yielding while the directories
    before it yield no manifest, [__init__] raises that exception, so that
    the manager leaves the finder out. *)
Theorem ReqsBaseFinder_init_unreadable_ancestor
  (py : Platform) (cls : ReqsBaseFinder.subclass) (self_path : string)
  (mapping : option (gmap string string))
  (before : list string) (ancestor : string) (after : list string) (e : exn)
  (Henabled : ReqsBaseFinder.enabled cls = true)
  (Hmapping : ReqsBaseFinder._load_mapping py = Ret mapping)
  (Hparents : ReqsBaseFinder._get_parents (ReqsBaseFinder.start_dir py self_path)
              = before ++ ancestor :: after)
  (Hbefore : Forall (fun b => ReqsBaseFinder._get_files_from_dir cls b = ([], None))
                    before)
  (Hscan : ReqsBaseFinder._get_files_from_dir cls ancestor = ([], Some e)) :
  ReqsBaseFinder.init py cls self_path = Raise e.
Proof.
  unfold ReqsBaseFinder.init. rewrite Henabled, Hmapping, bind_Ret.
  unfold ReqsBaseFinder._load_names, ReqsBaseFinder._get_files.
  rewrite Hparents, (gen_for_raises _ _ _ _ e Hbefore Hscan). reflexivity.
Qed.

Lemma ReqsBaseFinder_init_unreadable_ancestor_witness :
  ReqsBaseFinder.enabled (RequirementsFinder.cls unreadable_parent_platform) = true
  /\ ReqsBaseFinder._load_mapping unreadable_parent_platform = Ret None
  /\ ReqsBaseFinder._get_parents
       (ReqsBaseFinder.start_dir unreadable_parent_platform ".")
     = ["/home/u/proj"] ++ "/home/u" :: ["/home"; "/"]
  /\ RequirementsFinder.new unreadable_parent_platform empty_config default_sections
     = Raise (OSError "No such file or directory: '/home/u'").
Proof.
  assert (Hparents : ReqsBaseFinder._get_parents
                       (ReqsBaseFinder.start_dir unreadable_parent_platform ".")
                     = ["/home/u/proj"] ++ "/home/u" :: ["/home"; "/"])
    by (vm_compute; reflexivity).
  split; [reflexivity|]. split; [reflexivity|]. split; [exact Hparents|].
  unfold RequirementsFinder.new, ReqsBaseFinder.new.
  rewrite (ReqsBaseFinder_init_unreadable_ancestor unreadable_parent_platform
             (RequirementsFinder.cls unreadable_parent_platform) "." None
             ["/home/u/proj"] "/home/u" ["/home"; "/"]
             (OSError "No such file or directory: '/home/u'")
             eq_refl eq_refl Hparents).
  - reflexivity.
  - constructor; [vm_compute; reflexivity|constructor].
  - vm_compute. reflexivity.
Defined.

(** X18. Every path [RequirementsFinder._get_files_from_dir] yields for a
    directory is an entry of that very directory whose name ends in [.txt]
    or [.in], joined to the directory: nothing is yielded from inside a
    subdirectory, and nothing at all when the directory cannot be listed. *)
Theorem RequirementsFinder_get_files_from_dir_children
  (py : Platform) (path file_path : string)
  (Hyielded : In file_path (RequirementsFinder._get_files_from_dir py path).1) :
  exists entries name,
    os_listdir py path = Ret entries
    /\ In name entries
    /\ file_path = posixpath.join path name
    /\ (endswith name ".txt" = true \/ endswith name ".in" = true).
Proof.
  unfold RequirementsFinder._get_files_from_dir in Hyielded.
  apply gen_bind_In in Hyielded as (fname & Hfname & Hyielded).
  destruct (os_listdir py path) as [entries|e] eqn:Hlist; [|contradiction].
  simpl in Hfname. exists entries.
  destruct (negb (contains "requirements" fname)); [contradiction|].
  destruct (os_path_isdir py (posixpath.join path fname)).
  - apply gen_bind_In in Hyielded as (subfile_name & Hsub & Hyielded).
    simpl in Hsub. exists subfile_name. split; [reflexivity|]. split; [exact Hsub|].
    cbn [fst flat_map RequirementsFinder.exts] in Hyielded.
    destruct (endswith subfile_name ".txt") eqn:Htxt;
      destruct (endswith subfile_name ".in") eqn:Hin; simpl in Hyielded;
      intuition (subst; auto).
  - destruct (os_path_isfile py (posixpath.join path fname)); [|contradiction].
    unfold RequirementsFinder.yield_file in Hyielded. cbn [fst] in Hyielded.
    destruct (existsb (endswith fname) RequirementsFinder.exts) eqn:Hext;
      [|contradiction].
    destruct Hyielded as [<-|[]].
    exists fname. split; [reflexivity|]. split; [exact Hfname|]. split; [reflexivity|].
    simpl in Hext. rewrite orb_false_r in Hext. apply orb_true_iff in Hext. exact Hext.
Qed.

Lemma RequirementsFinder_get_files_from_dir_children_witness :
  In "/proj/notes.txt"
     (RequirementsFinder._get_files_from_dir requirements_dir_platform "/proj").1
  /\ exists entries name,
      os_listdir requirements_dir_platform "/proj" = Ret entries
      /\ In name entries
      /\ "/proj/notes.txt" = posixpath.join "/proj" name
      /\ (endswith name ".txt" = true \/ endswith name ".in" = true).
Proof.
  assert (Hyielded : In "/proj/notes.txt"
                        (RequirementsFinder._get_files_from_dir
                           requirements_dir_platform "/proj").1)
    by (vm_compute; left; reflexivity).
  split; [exact Hyielded|].
  exact (RequirementsFinder_get_files_from_dir_children requirements_dir_platform
           "/proj" "/proj/notes.txt" Hyielded).
Defined.

(** X19. When every directory of the walk can be listed, the manifests
    [PipfileFinder] reads are the directories of the walk that have an
    entry named [Pipfile], the nearest first, and the walk raises
    nothing. *)
Theorem PipfileFinder_get_files_ancestors
  (py : Platform) (self_path : string)
  (Hlisted : Forall (fun d => exists entries, os_listdir py d = Ret entries)
                    (ReqsBaseFinder._get_parents (ReqsBaseFinder.start_dir py self_path))) :
  ReqsBaseFinder._get_files py (PipfileFinder.cls py) self_path
  = (List.filter (has_Pipfile py)
       (ReqsBaseFinder._get_parents (ReqsBaseFinder.start_dir py self_path)),
     None).
Proof.
  unfold ReqsBaseFinder._get_files.
  cbn [ReqsBaseFinder._get_files_from_dir PipfileFinder.cls].
  induction Hlisted as [|d rest [entries Hd] _ IH]; [reflexivity|].
  cbn [gen_for List.filter]. rewrite IH.
  unfold PipfileFinder._get_files_from_dir, has_Pipfile. rewrite Hd.
  destruct (existsb (String.eqb "Pipfile") entries); reflexivity.
Qed.

Lemma PipfileFinder_get_files_ancestors_witness :
  Forall (fun d => exists entries, os_listdir pipfile_platform d = Ret entries)
         (ReqsBaseFinder._get_parents (ReqsBaseFinder.start_dir pipfile_platform "."))
  /\ ReqsBaseFinder._get_files pipfile_platform (PipfileFinder.cls pipfile_platform) "."
     = (["/w/repo/pkg"; "/w"], None).
Proof.
  assert (Hlisted :
            Forall (fun d => exists entries, os_listdir pipfile_platform d = Ret entries)
                   (ReqsBaseFinder._get_parents
                      (ReqsBaseFinder.start_dir pipfile_platform "."))).
  { replace (ReqsBaseFinder._get_parents (ReqsBaseFinder.start_dir pipfile_platform "."))
      with ["/w/repo/pkg"; "/w/repo"; "/w"; "/"] by (vm_compute; reflexivity).
    repeat constructor; eexists; vm_compute; reflexivity. }
  split; [exact Hlisted|].
  rewrite (PipfileFinder_get_files_ancestors pipfile_platform "." Hlisted).
  vm_compute. reflexivity.
Defined.

(** ** [KnownPatternFinder]: the regular expressions *)

Section Regexp.

Import re_model.

#[local] Arguments Ascii.eqb : simpl never.

Lemma replace_translate known_pattern :
  replace "?" ".?" (replace "*" ".*" known_pattern) = translate known_pattern.
Proof.
  induction known_pattern as [|c rest IH]; [reflexivity|].
  cbn [replace translate]. unfold translate_char.
  destruct (Ascii.eqb_spec c "*") as [->|Hstar].
  - change (".*" +:+ ?x) with (String "." (String "*" x)).
    cbn [replace].
    change (Ascii.eqb "." "?") with false. change (Ascii.eqb "*" "?") with false.
    cbv iota. rewrite IH. reflexivity.
  - cbn [replace]. destruct (Ascii.eqb_spec c "?") as [->|Hquestion].
    + rewrite IH. reflexivity.
    + rewrite IH. reflexivity.
Qed.

End Regexp.

(** X20. The regular expression of a known pattern is [^], then the pattern
    with every [*] turned into [.*] and every [?] into [.?] and every other
    character kept, then [$]: the second replacement leaves what the first
    one wrote untouched. *)
Theorem KnownPatternFinder_regexp_translate (known_pattern : string) :
  KnownPatternFinder.regexp known_pattern = "^" +:+ translate known_pattern +:+ "$".
Proof. unfold KnownPatternFinder.regexp. rewrite replace_translate. reflexivity. Qed.

Section RegexpModel.

Import re_model.

#[local] Arguments Ascii.eqb : simpl never.

Lemma parse_one c a h rest :
  atom_of c = Some a -> not_quantifier h ->
  parse (String c (String h rest)) = cons (a, One) <$> parse (String h rest).
Proof.
  intros Hatom [Hstar Hquestion]. cbn [parse]. rewrite Hatom.
  apply Ascii.eqb_neq in Hstar, Hquestion. rewrite Hstar, Hquestion. reflexivity.
Qed.

Lemma parse_star rest : parse (String "." (String "*" rest)) = cons (AnyChar, Star) <$> parse rest.
Proof. reflexivity. Qed.

Lemma parse_opt rest : parse (String "." (String "?" rest)) = cons (AnyChar, Opt) <$> parse rest.
Proof. reflexivity. Qed.

Lemma special_not_quantifier c : special c = false -> not_quantifier c.
Proof. intros H. split; intros ->; discriminate H. Qed.

Lemma atom_of_plain c : special c = false -> atom_of c = Some (Chr c).
Proof.
  intros H. unfold atom_of.
  destruct (Ascii.eqb_spec c "^") as [->|_]; [discriminate H|].
  destruct (Ascii.eqb_spec c "$") as [->|_]; [discriminate H|].
  destruct (Ascii.eqb_spec c ".") as [->|_]; [discriminate H|].
  rewrite H. reflexivity.
Qed.

Lemma item_of_plain c : special c = false -> item_of c = (Chr c, One).
Proof.
  intros H. unfold item_of.
  destruct (Ascii.eqb_spec c "*") as [->|_]; [discriminate H|].
  destruct (Ascii.eqb_spec c "?") as [->|_]; [discriminate H|].
  destruct (Ascii.eqb_spec c ".") as [->|_]; [discriminate H|].
  reflexivity.
Qed.

Lemma translate_char_plain c :
  c <> "*"%char -> c <> "?"%char -> translate_char c = String c EmptyString.
Proof.
  intros Hstar Hquestion. unfold translate_char.
  apply Ascii.eqb_neq in Hstar, Hquestion. rewrite Hstar, Hquestion. reflexivity.
Qed.

(** The translation of a pattern of the fragment, followed by a character
    that is not a quantifier, starts with a character that is not a
    quantifier. *)
Lemma translate_head known_pattern t tail :
  in_fragment known_pattern -> not_quantifier t ->
  exists h rest,
    translate known_pattern +:+ String t tail = String h rest /\ not_quantifier h.
Proof.
  intros Hfragment Ht. destruct known_pattern as [|c known_pattern].
  - exists t, tail. split; [reflexivity|exact Ht].
  - inversion Hfragment as [|? ? Hc _]; subst. cbn [translate].
    destruct Hc as [->|[->|[->|Hplain]]].
    + eexists _, _. split; [reflexivity|split; discriminate].
    + eexists _, _. split; [reflexivity|split; discriminate].
    + eexists _, _. split; [reflexivity|split; discriminate].
    + destruct (special_not_quantifier c Hplain) as [Hstar Hquestion].
      rewrite (translate_char_plain c Hstar Hquestion).
      eexists _, _. split; [reflexivity|split; assumption].
Qed.

Lemma parse_translate known_pattern t tail r :
  in_fragment known_pattern -> not_quantifier t ->
  parse (String t tail) = Some r ->
  parse (translate known_pattern +:+ String t tail) = Some (items known_pattern ++ r).
Proof.
  intros Hfragment Ht Htail.
  induction known_pattern as [|c known_pattern IH]; [exact Htail|].
  inversion Hfragment as [|? ? Hc Hrest]; subst.
  specialize (IH Hrest).
  destruct (translate_head known_pattern t tail Hrest Ht) as (h & rest & Hhead & Hh).
  cbn [translate]. unfold items, chars. cbn [list_ascii_of_string map app].
  fold (chars known_pattern). fold (items known_pattern).
  rewrite append_assoc.
  destruct Hc as [->|[->|[->|Hplain]]].
  - change (translate_char "*" +:+ ?x) with (String "." (String "*" x)).
    rewrite parse_star, IH. reflexivity.
  - change (translate_char "?" +:+ ?x) with (String "." (String "?" x)).
    rewrite parse_opt, IH. reflexivity.
  - change (translate_char "." +:+ ?x) with (String "." x).
    rewrite Hhead in *. rewrite (parse_one "." AnyChar) by (auto; reflexivity).
    rewrite IH. reflexivity.
  - destruct (special_not_quantifier c Hplain) as [Hstar Hquestion].
    rewrite (translate_char_plain c Hstar Hquestion), (item_of_plain c Hplain).
    change (String c EmptyString +:+ ?x) with (String c x).
    rewrite Hhead in *. rewrite (parse_one c (Chr c)) by (auto using atom_of_plain).
    rewrite IH. reflexivity.
Qed.

Lemma parse_regexp known_pattern :
  in_fragment known_pattern ->
  parse (KnownPatternFinder.regexp known_pattern)
  = Some ((Bol, One) :: items known_pattern ++ [(Eol, One)]).
Proof.
  intros Hfragment.
  unfold KnownPatternFinder.regexp. rewrite replace_translate.
  assert (Hdollar : not_quantifier "$") by (split; discriminate).
  destruct (translate_head known_pattern "$" EmptyString Hfragment Hdollar)
    as (h & rest & Hhead & Hh).
  change ("^" +:+ ?x) with (String "^" x).
  change (translate known_pattern +:+ "$")
    with (translate known_pattern +:+ String "$" EmptyString) in *.
  pose proof (parse_translate known_pattern "$" EmptyString [(Eol, One)]
                Hfragment Hdollar eq_refl) as Hparse.
  rewrite Hhead in *. rewrite (parse_one "^" Bol) by (auto; reflexivity).
  rewrite Hparse. reflexivity.
Qed.

End RegexpModel.

Section RegexpMatches.

Import re_model.

#[local] Arguments Ascii.eqb : simpl never.

Lemma matches_star r at_start s :
  matches ((AnyChar, Star) :: r) at_start s
  = matches r at_start s
    || match s with
       | EmptyString => false
       | String c s' => accepts AnyChar c && matches ((AnyChar, Star) :: r) false s'
       end.
Proof. destruct s; reflexivity. Qed.

Lemma matches_opt a r at_start s :
  consuming a = true ->
  matches ((a, Opt) :: r) at_start s
  = match s with
    | EmptyString => false
    | String c s' => accepts a c && matches r false s'
    end
    || matches r at_start s.
Proof. destruct a; [discriminate|discriminate|reflexivity|reflexivity]. Qed.

Lemma matches_one a r at_start s :
  consuming a = true ->
  matches ((a, One) :: r) at_start s
  = match s with
    | EmptyString => false
    | String c s' => accepts a c && matches r false s'
    end.
Proof. destruct a; [discriminate|discriminate|reflexivity|reflexivity]. Qed.

Lemma accepts_AnyChar c : accepts AnyChar c = true <-> c <> newline.
Proof.
  unfold accepts. rewrite negb_true_iff. apply Ascii.eqb_neq.
Qed.

Lemma matches_end at_start s :
  matches [(Eol, One)] at_start s = true
  <-> s = EmptyString \/ s = String newline EmptyString.
Proof.
  cbn [matches]. rewrite andb_true_r. unfold at_end.
  rewrite orb_true_iff, !String.eqb_eq. reflexivity.
Qed.

(** A run of characters other than newlines, taken by [.*]. *)
Lemma matches_star_run r run s :
  Forall (fun c => c <> newline) (chars run) ->
  (forall at_start, matches r at_start s = true) ->
  forall at_start, matches ((AnyChar, Star) :: r) at_start (run +:+ s) = true.
Proof.
  intros Hrun Hrest. induction run as [|c run IH]; intros at_start.
  - change (EmptyString +:+ s) with s. rewrite matches_star, Hrest. reflexivity.
  - inversion Hrun as [|? ? Hc Hrun']; subst.
    rewrite append_cons, matches_star. apply orb_true_iff. right.
    apply andb_true_iff. split; [apply accepts_AnyChar; exact Hc|apply IH; exact Hrun'].
Qed.

Lemma matches_star_inv r s at_start :
  matches ((AnyChar, Star) :: r) at_start s = true ->
  exists run rest at_rest,
    s = run +:+ rest
    /\ Forall (fun c => c <> newline) (chars run)
    /\ matches r at_rest rest = true.
Proof.
  revert at_start. induction s as [|c s IH]; intros at_start; rewrite matches_star.
  - rewrite orb_false_r. intros H.
    exists EmptyString, EmptyString, at_start. repeat split; [constructor|exact H].
  - intros H. apply orb_true_iff in H as [H|H].
    + exists EmptyString, (String c s), at_start. repeat split; [constructor|exact H].
    + apply andb_true_iff in H as [Hc H]. apply accepts_AnyChar in Hc.
      destruct (IH false H) as (run & rest & at_rest & -> & Hrun & Hrest).
      exists (String c run), rest, at_rest.
      repeat split; [constructor; assumption|exact Hrest].
Qed.

(** The parsed expression of a pattern of the fragment, with [$] after it,
    matches what the pattern stands for, wherever the match starts. *)
Lemma matches_items known_pattern :
  in_fragment known_pattern ->
  forall at_start s,
    matches (items known_pattern ++ [(Eol, One)]) at_start s = true
    <-> known_matches known_pattern s.
Proof.
  induction known_pattern as [|c known_pattern IH]; intros Hfragment at_start s.
  - change (items EmptyString ++ [(Eol, One)]) with [(Eol, One)].
    rewrite matches_end. split.
    + intros [->| ->]; constructor.
    + inversion 1; auto.
  - inversion Hfragment as [|? ? Hc Hrest]; subst. specialize (IH Hrest).
    unfold items, chars. cbn [list_ascii_of_string map app].
    fold (chars known_pattern). fold (items known_pattern).
    destruct Hc as [->|[->|[->|Hplain]]].
    + change (item_of "*") with (AnyChar, Star). split.
      * intros H. apply matches_star_inv in H
          as (run & rest & at_rest & -> & Hrun & Hmatch).
        constructor; [exact Hrun|]. apply (IH at_rest). exact Hmatch.
      * inversion 1 as [| |pat run rest Hrun Hmatch| | | |? ? ? Hstar]; subst;
          [|congruence].
        apply matches_star_run; [exact Hrun|].
        intros b. apply IH. exact Hmatch.
    + change (item_of "?") with (AnyChar, Opt).
      rewrite matches_opt by reflexivity. rewrite orb_true_iff. split.
      * intros [H|H].
        -- destruct s as [|a s]; [discriminate|].
           apply andb_true_iff in H as [Ha H]. apply accepts_AnyChar in Ha.
           apply known_question_one; [exact Ha|]. apply (IH false). exact H.
        -- apply known_question_none. apply (IH at_start). exact H.
      * inversion 1 as [| | |pat rest Hmatch|pat a rest Ha Hmatch| |? ? ? ? Hquestion];
          subst; [| |congruence].
        -- right. apply IH. exact Hmatch.
        -- left. apply andb_true_iff. split; [apply accepts_AnyChar; exact Ha|].
           apply IH. exact Hmatch.
    + change (item_of ".") with (AnyChar, One).
      rewrite matches_one by reflexivity. split.
      * destruct s as [|a s]; [discriminate|]. intros H.
        apply andb_true_iff in H as [Ha H]. apply accepts_AnyChar in Ha.
        apply known_dot; [exact Ha|]. apply (IH false). exact H.
      * inversion 1 as [| | | | |pat a rest Ha Hmatch|? ? ? ? ? Hdot]; subst;
          [|congruence].
        apply andb_true_iff. split; [apply accepts_AnyChar; exact Ha|].
        apply IH. exact Hmatch.
    + rewrite (item_of_plain c Hplain). rewrite matches_one by reflexivity.
      assert (Hstar : c <> "*"%char) by (intros ->; discriminate Hplain).
      assert (Hquestion : c <> "?"%char) by (intros ->; discriminate Hplain).
      assert (Hdot : c <> "."%char) by (intros ->; discriminate Hplain).
      split.
      * destruct s as [|a s]; [discriminate|]. intros H.
        apply andb_true_iff in H as [Ha H]. cbn [accepts] in Ha.
        apply Ascii.eqb_eq in Ha. subst a.
        apply known_char; try assumption. apply (IH false). exact H.
      * inversion 1 as [| | | | | |? pat rest _ _ _ Hmatch]; subst; try congruence.
        apply andb_true_iff. split; [cbn [accepts]; apply Ascii.eqb_refl|].
        apply IH. exact Hmatch.
Qed.

End RegexpMatches.

(** X21. In the model of [re], the regular expression of a known pattern
    made of [*], [?], [.] and characters without a meaning of their own
    compiles, and the compiled pattern matches a candidate exactly when the
    whole candidate, up to one newline at its end, is what the pattern
    stands for with [*] for any run of characters other than newlines, [?]
    for at most one such character (none will do), [.] for exactly one such
    character and every other character for itself. *)
Theorem KnownPatternFinder_regexp_matches
  (known_pattern : string) (Hfragment : in_fragment known_pattern) :
  exists compiled,
    re_model.compile (KnownPatternFinder.regexp known_pattern) = Ret compiled
    /\ pattern compiled = KnownPatternFinder.regexp known_pattern
    /\ forall candidate,
        pattern_match compiled candidate = true
        <-> known_matches known_pattern candidate.
Proof.
  unfold re_model.compile. rewrite (parse_regexp known_pattern Hfragment).
  eexists. split; [reflexivity|]. split; [reflexivity|].
  intros candidate. cbn [pattern_match].
  change (re_model.matches ((re_model.Bol, re_model.One) :: ?r) true candidate)
    with (true && re_model.matches r true candidate).
  rewrite andb_true_l. apply matches_items. exact Hfragment.
Qed.

Lemma KnownPatternFinder_regexp_matches_witness :
  in_fragment "foo.ba?"
  /\ exists compiled,
      re_model.compile (KnownPatternFinder.regexp "foo.ba?") = Ret compiled
      /\ pattern compiled = "^foo.ba.?$"
      /\ pattern_match compiled "foo.ba" = true
      /\ pattern_match compiled "fooxbar" = true
      /\ pattern_match compiled "foo.bars" = false.
Proof.
  assert (Hfragment : in_fragment "foo.ba?")
    by (repeat constructor; auto).
  split; [exact Hfragment|].
  destruct (KnownPatternFinder_regexp_matches "foo.ba?" Hfragment)
    as (compiled & Hcompile & Hpattern & Hmatch).
  exists compiled. split; [exact Hcompile|]. split; [exact Hpattern|].
  vm_compute in Hcompile. injection Hcompile as <-.
  repeat split; vm_compute; reflexivity.
Defined.

(** ** [ForcedSeparateFinder]: patterns without wildcards *)

Section LiteralPatterns.

Import fnmatch_model.

#[local] Arguments Ascii.eqb : simpl never.

Lemma fnmatch_pat_star_only name : fnmatch_pat "*" name = true.
Proof.
  induction name as [|c name IH]; rewrite fnmatch_pat_star; [reflexivity|].
  rewrite IH. apply orb_true_r.
Qed.

Lemma prefix_cons c p a name :
  String.prefix (String c p) (String a name)
  = Ascii.eqb a c && String.prefix p name.
Proof.
  cbn [String.prefix]. destruct (ascii_dec c a) as [->|Hne].
  - rewrite Ascii.eqb_refl. reflexivity.
  - destruct (Ascii.eqb_spec a c) as [->|_]; [contradiction|reflexivity].
Qed.

(** A literal pattern with [*] after it matches the names it starts. *)
Lemma fnmatch_literal_star p :
  literal_pattern p ->
  forall name, fnmatch_pat (p +:+ "*") name = startswith name p.
Proof.
  unfold startswith. induction p as [|c p IH]; intros Hliteral name.
  - change (EmptyString +:+ "*") with "*". rewrite fnmatch_pat_star_only.
    destruct name; reflexivity.
  - inversion Hliteral as [|? ? (Hstar & Hquestion & _) Hrest]; subst.
    rewrite append_cons, (fnmatch_pat_char _ _ _ Hstar Hquestion).
    destruct name as [|a name]; [reflexivity|].
    rewrite prefix_cons, (IH Hrest). reflexivity.
Qed.

Lemma endswith_literal p : literal_pattern p -> endswith p "*" = false.
Proof.
  induction p as [|c p IH]; intros Hliteral; [reflexivity|].
  inversion Hliteral as [|? ? (Hstar & _) Hrest]; subst.
  cbn [endswith]. rewrite (IH Hrest), orb_false_r.
  cbn [String.eqb]. apply Ascii.eqb_neq in Hstar. rewrite Hstar. reflexivity.
Qed.

End LiteralPatterns.

(** X22. A forced-separate pattern without a wildcard acts as a prefix.
    With [fnmatch] as its model has it, such a pattern matches exactly the
    module names that start with it and the module names that start with a
    dot followed by it. *)
Theorem ForcedSeparateFinder_literal_prefix
  (py : Platform) (module_name forced_separate : string)
  (Hfnmatch : fnmatch py = fnmatch_model.fnmatch)
  (Hliteral : literal_pattern forced_separate) :
  forced_separate_matches py module_name forced_separate
  = startswith module_name forced_separate
    || startswith module_name ("." +:+ forced_separate).
Proof.
  unfold forced_separate_matches, ForcedSeparateFinder.path_glob.
  rewrite (endswith_literal _ Hliteral), Hfnmatch. cbn [negb].
  unfold fnmatch_model.fnmatch.
  rewrite (fnmatch_literal_star _ Hliteral).
  change ("." +:+ forced_separate +:+ "*") with (("." +:+ forced_separate) +:+ "*").
  rewrite fnmatch_literal_star; [reflexivity|].
  constructor; [repeat split; discriminate|exact Hliteral].
Qed.

Lemma ForcedSeparateFinder_literal_prefix_witness :
  fnmatch plain_platform = fnmatch_model.fnmatch
  /\ literal_pattern "django"
  /\ forced_separate_matches plain_platform "djangorestframework" "django" = true
  /\ forced_separate_matches plain_platform ".django.db" "django" = true
  /\ forced_separate_matches plain_platform "my.django" "django" = false.
Proof.
  assert (Hliteral : literal_pattern "django")
    by (repeat constructor; discriminate).
  split; [reflexivity|]. split; [exact Hliteral|].
  rewrite !(ForcedSeparateFinder_literal_prefix plain_platform _ "django" eq_refl Hliteral).
  repeat split; vm_compute; reflexivity.
Defined.

(** ** [KnownPatternFinder]: directories *)

Lemma mapM_result_raises {A B} (f : A -> result B) (l : list A) (x : A) (e : exn) :
  In x l -> f x = Raise e -> exists e', mapM f l = Raise e'.
Proof.
  intros Hin Hx. induction l as [|y l IH]; [contradiction|].
  rewrite mapM_cons. destruct Hin as [->|Hin].
  - rewrite Hx. eauto.
  - destruct (f y); [|eauto]. rewrite bind_Ret.
    destruct (IH Hin) as [e' ->]. eauto.
Qed.

(** X23. One configured directory that cannot be listed disables all known
    patterns: when some known pattern of some placement ends in a slash and
    listing it raises, [KnownPatternFinder(config, sections)] raises, so
    that the manager leaves the finder out, with the patterns of every
    placement. *)
Theorem KnownPatternFinder_new_unlistable_directory
  (py : Platform) (config : Config) (sections : Sections)
  (placement known_pattern : string) (e : exn)
  (Hplacement : In placement (placements sections))
  (Hconfigured : In known_pattern (configured config placement))
  (Hdirectory : endswith known_pattern "/" = true)
  (Hlisting : os_listdir py known_pattern = Raise e) :
  exists e', KnownPatternFinder.new py config sections = Raise e'.
Proof.
  assert (Hparse : KnownPatternFinder._parse_known_pattern py known_pattern = Raise e).
  { unfold KnownPatternFinder._parse_known_pattern.
    change posixpath.sep_str with "/". rewrite Hdirectory, Hlisting. reflexivity. }
  assert (Hround : exists e',
             KnownPatternFinder.known_patterns_of py config placement = Raise e').
  { unfold KnownPatternFinder.known_patterns_of.
    fold (config_key placement). fold (configured config placement).
    destruct (mapM_result_raises _ _ _ _ Hconfigured Hparse) as [e' ->]. eauto. }
  destruct Hround as [e' Hround].
  unfold KnownPatternFinder.new, KnownPatternFinder.init.
  apply in_rev in Hplacement.
  destruct (mapM_result_raises _ _ _ _ Hplacement Hround) as [e'' ->]. eauto.
Qed.

Lemma KnownPatternFinder_new_unlistable_directory_witness :
  In "THIRDPARTY" (placements default_sections)
  /\ In "vendor/" (configured vendor_config "THIRDPARTY")
  /\ endswith "vendor/" "/" = true
  /\ os_listdir plain_platform "vendor/"
     = Raise (OSError "No such file or directory: 'vendor/'")
  /\ exists e',
      KnownPatternFinder.new plain_platform vendor_config default_sections = Raise e'.
Proof.
  assert (Hplacement : In "THIRDPARTY" (placements default_sections))
    by (simpl; auto).
  assert (Hconfigured : In "vendor/" (configured vendor_config "THIRDPARTY"))
    by (vm_compute; auto).
  split; [exact Hplacement|]. split; [exact Hconfigured|].
  split; [reflexivity|]. split; [reflexivity|].
  exact (KnownPatternFinder_new_unlistable_directory plain_platform vendor_config
           default_sections "THIRDPARTY" "vendor/"
           (OSError "No such file or directory: 'vendor/'")
           Hplacement Hconfigured eq_refl eq_refl).
Defined.

(** * The claims on the pattern finders *)

(** ** [ForcedSeparateFinder.find] *)




(** ** [KnownPatternFinder.find] *)

Section MostSpecific.

Import KnownPatternFinder.

Lemma first_match_head known_patterns name :
  first_match known_patterns name
  = head (map snd (List.filter (fun known : Pattern * string =>
                                  pattern_match known.1 name) known_patterns)).
Proof.
  induction known_patterns as [|[pattern placement] rest IH]; [reflexivity|].
  cbn [first_match List.filter fst].
  destruct (pattern_match pattern name); [reflexivity|exact IH].
Qed.

Lemma head_app {A} (l1 l2 : list A) :
  head (l1 ++ l2) = match head l1 with Some x => Some x | None => head l2 end.
Proof. destruct l1; reflexivity. Qed.

Lemma find_loop_head known_patterns names :
  find_loop known_patterns names
  = head (flat_map
            (fun name =>
               map snd (List.filter (fun known : Pattern * string =>
                                       pattern_match known.1 name) known_patterns))
            names).
Proof.
  induction names as [|name rest IH]; [reflexivity|].
  cbn [find_loop flat_map]. rewrite head_app, <- first_match_head, IH.
  destruct (first_match known_patterns name); reflexivity.
Qed.

End MostSpecific.

(** C4. [KnownPatternFinder.find] goes through the dotted prefixes of the
    module name from the most specific to the least: the full name first,
    then the name with its last components taken off one after the other,
    down to the first component. The answer is the placement of the first
    pair of a prefix and a stored pattern that matches, the prefixes taken
    in that order and, for one prefix, the patterns in their stored order:
    the longest prefix that some pattern matches wins, the earlier pattern
    wins for one prefix, and there is no answer when no pattern matches any
    prefix. With the pattern [foo.bar] known as third party, [foo.bar.baz]
    is placed in [THIRDPARTY] and [foo.qux] is not placed. *)
Theorem KnownPatternFinder_find_most_specific
  (known_patterns : list (Pattern * string)) (module_name : string) :
  let parts := split "." module_name in
  let names := KnownPatternFinder.module_names_to_check module_name in
  KnownPatternFinder.find known_patterns module_name
  = head (flat_map
            (fun name =>
               map snd (List.filter (fun known : Pattern * string =>
                                       pattern_match known.1 name) known_patterns))
            names)
  /\ length names = length parts
  /\ (forall i, i < length parts ->
                names !! i = Some (Py.join "." (take (length parts - i) parts)))
  /\ head names = Some module_name
  /\ last names = head parts
  /\ exists third_party,
      KnownPatternFinder.init plain_platform (known_third_party ["foo.bar"])
        default_sections = Ret third_party
      /\ KnownPatternFinder.find third_party "foo.bar.baz" = Some "THIRDPARTY"
      /\ KnownPatternFinder.find third_party "foo.qux" = None.
Proof.
  intros parts names.
  pose proof (module_names_to_check_length module_name) as Hlen.
  pose proof (module_names_to_check_lookup module_name) as Hlookup.
  destruct (split_cons "." module_name) as (first & others & Hparts).
  fold parts in Hlen, Hlookup, Hparts. fold names in Hlen, Hlookup.
  split; [apply find_loop_head|]. split; [exact Hlen|]. split; [exact Hlookup|].
  split; [|split].
  - rewrite head_lookup, Hlookup by (rewrite Hparts; simpl; lia).
    rewrite Nat.sub_0_r, take_ge by lia.
    unfold parts. rewrite join_split. reflexivity.
  - rewrite last_lookup, Hlen, Hlookup by (rewrite Hparts; simpl; lia).
    rewrite Hparts. simpl length.
    replace (S (length others) - pred (S (length others))) with 1 by lia.
    reflexivity.
  - eexists. split; [vm_compute; reflexivity|]. split; vm_compute; reflexivity.
Qed.

(** ** [KnownPatternFinder.__init__]: what the compiled patterns match *)

Section Compiled.




End Compiled.



